(** * The OpenAI free-tier quota guard ([scripts/openai_quota_guard.py])

    A shallow embedding of the quota-state engine: the persisted record, the
    date rollover performed by [load_state], and the commands [cmd_request],
    [cmd_set_plan] and [cmd_reset].

    Modelling conventions.
    - The record kept in the state file is whatever [json.load] returns, so it
      is modelled as a dynamically typed JSON value; Python dictionaries are
      finite maps with string keys ([gmap string json]).  JSON numbers are
      Python ints ([Z]); float literals in a hand-edited file are outside the
      model (the guard itself only ever writes ints).
    - A Python [str] is a Rocq [string], one [ascii] per code point, so the
      model covers the strings whose code points are below 256.
    - Exceptions that the source does not catch are results [Raise e].
    - The file system is the [disk] field of a [world]; [writes] logs every
      record handed to [json.dump], newest first, and [printed] every message
      sent to stdout or stderr, newest first.
    - [date.today()] is the section variable [today]: one command runs within
      one calendar day. *)

From Stdlib Require Import ZArith Ascii String List Lia.
From stdpp Require Import gmap strings list fin_maps sorting.

Open Scope Z_scope.

(** ** Python values and exceptions *)

#[warnings="-register-all"]
Inductive json : Type :=
| JNull
| JBool (b : bool)
| JInt (z : Z)
| JStr (s : string)
| JList (l : list json)
| JDict (m : gmap string json).

Inductive exn : Type :=
| AttributeError
| TypeError
| KeyError
| UnicodeDecodeError.

Inductive result (A : Type) : Type :=
| Ok (a : A)
| Raise (e : exn).
Arguments Ok {A} a.
Arguments Raise {A} e.

#[global] Instance result_ret : MRet result := λ A a, Ok a.
#[global] Instance result_bind : MBind result := λ A B f r,
  match r with
  | Ok a => f a
  | Raise e => Raise e
  end.

(** [x.get], [x.setdefault]: only a dict has these methods. *)
Definition dict_of (v : json) : result (gmap string json) :=
  match v with
  | JDict m => Ok m
  | _ => Raise AttributeError
  end.

(** [d[k]] on a dict. *)
Definition getitem (d : gmap string json) (k : string) : result json :=
  match d !! k with
  | Some v => Ok v
  | None => Raise KeyError
  end.

(** [d.get(k, dflt)] on a dict. *)
Definition get_or (d : gmap string json) (k : string) (dflt : json) : json :=
  default dflt (d !! k).

(** [d.setdefault(k, v)] on a dict: a present key keeps its value, whatever it
    is. *)
Definition setdefault (k : string) (v : json) (d : gmap string json)
  : gmap string json :=
  match d !! k with
  | Some _ => d
  | None => <[k := v]> d
  end.

(** The operand of an ordering comparison or a subtraction with an int:
    ints, and bools as the ints 0 and 1; anything else is a [TypeError]. *)
Definition py_int (v : json) : result Z :=
  match v with
  | JInt z => Ok z
  | JBool b => Ok (if b then 1 else 0)
  | _ => Raise TypeError
  end.

(** ** [str.strip()] and [str.lower()] *)

(** White space as [str.strip] sees it, among the code points below 256. *)
Definition is_space (c : ascii) : bool :=
  let n := N_of_ascii c in
  ((9 <=? n) && (n <=? 13) || (28 <=? n) && (n <=? 32)
   || (n =? 133) || (n =? 160))%N.

(** [str.lower] on one code point below 256. *)
Definition lower_char (c : ascii) : ascii :=
  let n := N_of_ascii c in
  if ((65 <=? n) && (n <=? 90)
      || (192 <=? n) && (n <=? 222) && negb (n =? 215))%N
  then ascii_of_N (n + 32)
  else c.

Fixpoint lstrip (s : string) : string :=
  match s with
  | EmptyString => EmptyString
  | String c s' => if is_space c then lstrip s' else s
  end.

Fixpoint rstrip (s : string) : string :=
  match s with
  | EmptyString => EmptyString
  | String c s' =>
      match rstrip s' with
      | EmptyString => if is_space c then EmptyString else String c EmptyString
      | t => String c t
      end
  end.

Definition strip (s : string) : string := rstrip (lstrip s).

Fixpoint lower (s : string) : string :=
  match s with
  | EmptyString => EmptyString
  | String c s' => String (lower_char c) (lower s')
  end.

(** ** The bucket registry *)

Definition DAILY_LIMITS : list (string * Z) :=
  [ ("tokens_250k", 250000); ("tokens_2_5m", 2500000) ].

Definition MODEL_BUCKETS : list (string * string) :=
  [ ("gpt-5.1", "tokens_250k");
    ("gpt-5.1-codex", "tokens_250k");
    ("gpt-5", "tokens_250k");
    ("gpt-5-codex", "tokens_250k");
    ("gpt-5-chat-latest", "tokens_250k");
    ("gpt-4.1", "tokens_250k");
    ("gpt-4o", "tokens_250k");
    ("o1", "tokens_250k");
    ("o3", "tokens_250k");
    ("gpt-5.1-codex-mini", "tokens_2_5m");
    ("gpt-5-mini", "tokens_2_5m");
    ("gpt-5-nano", "tokens_2_5m");
    ("gpt-4.1-mini", "tokens_2_5m");
    ("gpt-4.1-nano", "tokens_2_5m");
    ("gpt-4o-mini", "tokens_2_5m");
    ("o3-mini", "tokens_2_5m");
    ("o4-mini", "tokens_2_5m");
    ("codex-mini-latest", "tokens_2_5m") ].

(** [DAILY_LIMITS.copy()], as the JSON dict it becomes inside a record. *)
Definition limits_copy : gmap string json :=
  list_to_map (prod_map id JInt <$> DAILY_LIMITS).

Definition bucket_for_model (model : string) : option string :=
  (list_to_map MODEL_BUCKETS : gmap string string) !! model.

(** [DAILY_LIMITS.get(bucket)]. *)
Definition daily_limit (bucket : string) : option Z :=
  (list_to_map DAILY_LIMITS : gmap string Z) !! bucket.

(** ** The world a command runs in *)

(** What opening and decoding the state file does. *)
Inductive file : Type :=
| Missing                 (* [STATE_FILE.exists()] is false *)
| Unreadable              (* opening or reading raises [IOError] *)
| BadUnicode              (* the bytes are not UTF-8: [UnicodeDecodeError] *)
| BadJSON                 (* the text is not JSON: [JSONDecodeError] *)
| Holds (j : json).       (* [json.load] returns [j] *)

Inductive message : Type :=
| PlanStillAvailable
| NotOnAllowlist (model : string)
| TokensMustBePositive
| NotEnoughTokens (bucket : string) (remaining : json) (requested : Z)
| RequestAllowed (consumed remaining : Z) (bucket : string)
| PlanCannotBeNegative
| PlanSet (tokens : Z)
| BucketsReset.

Record world : Type := World {
  disk : file;
  writes : list json;
  printed : list message
}.

Definition M (A : Type) : Type := world → result A * world.

#[global] Instance M_ret : MRet M := λ A a w, (Ok a, w).
#[global] Instance M_bind : MBind M := λ A B f m w,
  match m w with
  | (Ok a, w') => f a w'
  | (Raise e, w') => (Raise e, w')
  end.

Definition lift {A : Type} (r : result A) : M A := λ w, (r, w).

Definition print (msg : message) : M unit := λ w,
  (Ok tt, World (disk w) (writes w) (msg :: printed w)).

Section Guard.

Variable today : string.

(** ** The state store *)

Definition default_state : gmap string json :=
  <["date" := JStr today]>
    (<["buckets" := JDict limits_copy]>
       (<["plan_tokens_left" := JInt 0]> ∅)).

(** [state.get("date") != today_str()], negated. *)
Definition date_is_today (state : gmap string json) : bool :=
  match state !! "date" with
  | Some (JStr d) => bool_decide (d = today)
  | _ => false
  end.

(** The loop [for bucket, limit in DAILY_LIMITS.items():
    state["buckets"].setdefault(bucket, limit)]. *)
Fixpoint fill_missing (items : list (string * Z)) (state : gmap string json)
  : result (gmap string json) :=
  match items with
  | [] => Ok state
  | (bucket, limit) :: rest =>
      buckets ← getitem state "buckets";
      bm ← dict_of buckets;
      fill_missing rest
        (<["buckets" := JDict (setdefault bucket (JInt limit) bm)]> state)
  end.

(** Lines 63 to 71 of [load_state]: the rollover policy applied to the value
    [json.load] returned. *)
Definition reconcile (raw : json) : result (gmap string json) :=
  state ← dict_of raw;
  let state :=
    if date_is_today state then state
    else
      let preserved_plan := get_or state "plan_tokens_left" (JInt 0) in
      <["plan_tokens_left" := preserved_plan]> default_state in
  let state := setdefault "buckets" (JDict limits_copy) state in
  state ← fill_missing DAILY_LIMITS state;
  Ok (setdefault "plan_tokens_left" (JInt 0) state).

Definition load_state : M (gmap string json) := λ w,
  match disk w with
  | Missing => (Ok default_state, w)
  | Unreadable => (Ok default_state, w)
  | BadJSON => (Ok default_state, w)
  | BadUnicode => (Raise UnicodeDecodeError, w)
  | Holds raw => (reconcile raw, w)
  end.

(** [save_state] stamps the date and replaces the file's content.  The write
    itself is taken to succeed. *)
Definition save_state (state : gmap string json) : M unit := λ w,
  let state := <["date" := JStr today]> state in
  (Ok tt, World (Holds (JDict state)) (JDict state :: writes w) (printed w)).

(** ** The commands; each returns its exit code *)

Definition cmd_set_plan (tokens : Z) : M Z :=
  if tokens <? 0 then
    print PlanCannotBeNegative;; mret 1
  else
    state ← load_state;
    save_state (<["plan_tokens_left" := JInt tokens]> state);;
    print (PlanSet tokens);;
    mret 0.

Definition cmd_reset : M Z :=
  let state := default_state in
  prev ← load_state;
  save_state
    (<["plan_tokens_left" := get_or prev "plan_tokens_left" (JInt 0)]> state);;
  print BucketsReset;;
  mret 0.

Definition cmd_request (model_arg : string) (tokens : Z) : M Z :=
  let model := lower (strip model_arg) in
  state ← load_state;
  plan ← lift (py_int (get_or state "plan_tokens_left" (JInt 0)));
  if 0 <? plan then
    print PlanStillAvailable;; mret 1
  else
    match bucket_for_model model with
    | None => print (NotOnAllowlist model);; mret 1
    | Some bucket =>
        if tokens <=? 0 then
          print TokensMustBePositive;; mret 1
        else
          buckets ← lift (getitem state "buckets");
          bm ← lift (dict_of buckets);
          let remaining := get_or bm bucket (JInt 0) in
          left ← lift (py_int remaining);
          if left <? tokens then
            print (NotEnoughTokens bucket remaining tokens);; mret 1
          else
            let after := left - tokens in
            let state :=
              <["buckets" := JDict (<[bucket := JInt after]> bm)]> state in
            save_state state;;
            print (RequestAllowed tokens after bucket);;
            mret 0
    end.

End Guard.

(** ** Describing strings, records and worlds *)



(** What the default-filling loop does to the buckets dict. *)
Definition fill_dict (items : list (string * Z)) (bm : gmap string json)
  : gmap string json :=
  foldl (λ acc item, setdefault item.1 (JInt item.2) acc) bm items.

(** The plan allowance and a bucket balance, as [cmd_request] reads them from
    a loaded record. *)
Definition plan_of (state : gmap string json) : result Z :=
  py_int (get_or state "plan_tokens_left" (JInt 0)).

Definition balance_of (state : gmap string json) (bucket : string)
  : result Z :=
  buckets ← getitem state "buckets";
  bm ← dict_of buckets;
  py_int (get_or bm bucket (JInt 0)).

(** The record [cmd_request] hands to [save_state] when it admits a request
    of [tokens] against [bucket], whose balance was [left]. *)
Definition debited (state : gmap string json) (bucket : string) (after : Z)
  : gmap string json :=
  match state !! "buckets" with
  | Some (JDict bm) =>
      <["buckets" := JDict (<[bucket := JInt after]> bm)]> state
  | _ => state
  end.

(** The world after a command printed [msg] and did nothing else. *)
Definition say (msg : message) (w : world) : world :=
  World (disk w) (writes w) (msg :: printed w).

(** The messages that report a denial. *)
Definition is_denial (msg : message) : bool :=
  match msg with
  | PlanStillAvailable | NotOnAllowlist _ | TokensMustBePositive
  | NotEnoughTokens _ _ _ => true
  | _ => false
  end.

Section Records.

Variable today : string.

(** The shape every record returned by [load_state] has: dated today, a
    buckets dict that the default-filling loop leaves alone, and a plan
    entry. *)
Definition reconciled (state : gmap string json) : Prop :=
  state !! "date" = Some (JStr today)
  ∧ (∃ bm, state !! "buckets" = Some (JDict bm)
           ∧ fill_dict DAILY_LIMITS bm = bm)
  ∧ is_Some (state !! "plan_tokens_left").

(** The world after a command saved [state] and then printed [msg]. *)
Definition saved (state : gmap string json) (msg : message) (w : world)
  : world :=
  let record := JDict (<["date" := JStr today]> state) in
  World (Holds record) (record :: writes w) (msg :: printed w).

End Records.

(** ** Sample worlds *)

(** No state file yet. *)
Definition fresh_world : world := World Missing [] [].

(** A record left by the day before: 10 tokens in the small bucket and a plan
    allowance of 500. *)
Definition yesterday_record : gmap string json :=
  <["date" := JStr "2026-01-01"]>
    (<["buckets" := JDict (<["tokens_250k" := JInt 10]> ∅)]>
       (<["plan_tokens_left" := JInt 500]> ∅)).

Definition stale_world : world := World (Holds (JDict yesterday_record)) [] [].

(** What [load_state] makes of [stale_world] on 2026-01-02. *)
Definition rolled_record : gmap string json :=
  <["plan_tokens_left" := JInt 500]> (default_state "2026-01-02").

(** ** The rest of the guard: allowlist, status report, dispatch *)

(** The comprehension [[m for m, bucket in MODEL_BUCKETS.items() if bucket ==
    name]] of [print_allowlist]. *)
Definition models_in (name : string) : list string :=
  (filter (λ item, item.2 = name) MODEL_BUCKETS).*1.

(** [sorted] on a list of strings: the order of the code points. *)
Definition py_sorted (names : list string) : list string :=
  merge_sort (λ a b, String.leb a b) names.

(** What [print_allowlist] prints: the names joined after its first heading
    and those joined after its second. *)
Definition print_allowlist : list string * list string :=
  (py_sorted (models_in "tokens_250k"), py_sorted (models_in "tokens_2_5m")).

(** What [cmd_status] prints: the date, the plan entry, one line per bucket
    with its balance and the limit shown beside it, and the allowlist when
    asked for.  The lines are kept by bucket; their order on the screen, the
    insertion order of the Python dict, is not modelled. *)
Record status_report : Type := StatusReport {
  shown_date : json;
  shown_plan : json;
  shown_buckets : gmap string (json * json);
  shown_allowlist : option (list string * list string)
}.

(** The command line after [argparse]: the sub-command and its arguments.
    Parsing itself is not modelled. *)
Inductive arguments : Type :=
| StatusArgs (allowlist : bool)
| SetPlanArgs (tokens : Z)
| ResetArgs
| RequestArgs (model : string) (tokens : Z).

Section Shell.

Variable today : string.

(** [cmd_status] returns its report beside the exit code. *)
Definition cmd_status (allowlist : bool) : M (Z * status_report) :=
  state ← load_state today;
  date ← lift (getitem state "date");
  plan ← lift (getitem state "plan_tokens_left");
  buckets ← lift (getitem state "buckets");
  bm ← lift (dict_of buckets);
  let lines :=
    map_imap (λ bucket remaining,
                Some (remaining,
                      default remaining (JInt <$> daily_limit bucket))) bm in
  mret (0, StatusReport date plan lines
             (if allowlist then Some print_allowlist else None)).

(** [main] hands the parsed arguments to the function of the sub-command and
    returns its exit code. *)
Definition main (args : arguments) : M Z :=
  match args with
  | StatusArgs allowlist => shown ← cmd_status allowlist; mret shown.1
  | SetPlanArgs tokens => cmd_set_plan today tokens
  | ResetArgs => cmd_reset today
  | RequestArgs model tokens => cmd_request today model tokens
  end.

(** Successive runs of the guard within one day: each run starts in the world
    the run before it left, whether that run returned or raised. *)
Fixpoint session (runs : list arguments) (w : world) : world :=
  match runs with
  | [] => w
  | args :: rest => session rest (main args w).2
  end.

(** The tokens one run charges to [bucket]: the cost of a request that
    returned 0 for a model of that bucket. *)
Definition charge (bucket : string) (args : arguments) (w : world) : Z :=
  match args, (main args w).1 with
  | RequestArgs model tokens, Ok 0 =>
      if bool_decide (bucket_for_model (lower (strip model)) = Some bucket)
      then tokens else 0
  | _, _ => 0
  end.

(** The tokens a session charges to [bucket]. *)
Fixpoint spent (bucket : string) (runs : list arguments) (w : world) : Z :=
  match runs with
  | [] => 0
  | args :: rest => charge bucket args w + spent bucket rest (main args w).2
  end.

(** Whether [load_state] can make a record of what the file holds. *)
Definition loads (f : file) : bool :=
  match f with
  | Missing | Unreadable | BadJSON => true
  | BadUnicode => false
  | Holds (JDict m) =>
      if date_is_today today m then
        match m !! "buckets" with
        | Some (JDict _) | None => true
        | Some _ => false
        end
      else true
  | Holds _ => false
  end.

End Shell.

(** A day at the command line: two requests, the second above what is left,
    a plan allowance set and cleared again, and a last request that empties
    the small bucket. *)
Definition sample_runs : list arguments :=
  [ RequestArgs "gpt-5" 200000;
    RequestArgs " GPT-5 " 60000;
    SetPlanArgs 5;
    RequestArgs "gpt-4o" 10;
    StatusArgs true;
    SetPlanArgs 0;
    RequestArgs "o3" 50000 ].

(** * Properties *)

(** ** Dictionaries *)

Lemma lookup_setdefault (k k' : string) (v : json) (d : gmap string json) :
  setdefault k v d !! k' =
  if decide (k = k') then Some (default v (d !! k)) else d !! k'.
Proof.
  unfold setdefault. destruct (d !! k) as [x|] eqn:E.
  - case_decide; subst; simpl; [exact E | reflexivity].
  - rewrite lookup_insert. case_decide; reflexivity.
Qed.

Lemma setdefault_present (k : string) (v : json) (d : gmap string json) :
  is_Some (d !! k) → setdefault k v d = d.
Proof. intros [x E]. unfold setdefault. by rewrite E. Qed.

Lemma setdefault_is_Some (k : string) (v : json) (d : gmap string json) :
  is_Some (setdefault k v d !! k).
Proof. rewrite lookup_setdefault, decide_True by done. eauto. Qed.

Lemma fill_missing_dict (items : list (string * Z))
    (state bm : gmap string json) :
  state !! "buckets" = Some (JDict bm) →
  fill_missing items state
  = Ok (<["buckets" := JDict (fill_dict items bm)]> state).
Proof.
  revert state bm. induction items as [|[bucket limit] rest IH];
    intros state bm Hb; simpl.
  - by rewrite insert_id.
  - unfold getitem. rewrite Hb. simpl.
    rewrite (IH _ (setdefault bucket (JInt limit) bm))
      by apply lookup_insert_eq.
    by rewrite insert_insert_eq.
Qed.

Lemma fill_missing_no_dict (state : gmap string json) (v : json) (e : exn) :
  state !! "buckets" = Some v → dict_of v = Raise e →
  fill_missing DAILY_LIMITS state = Raise e.
Proof.
  intros Hb Hv. simpl. unfold getitem. rewrite Hb. simpl. by rewrite Hv.
Qed.

Lemma lookup_fill_dict (bm : gmap string json) (k : string) :
  fill_dict DAILY_LIMITS bm !! k =
  match bm !! k with
  | Some v => Some v
  | None => limits_copy !! k
  end.
Proof.
  unfold fill_dict. simpl. rewrite !lookup_setdefault.
  repeat case_decide; subst; simpl; try done.
  - destruct (bm !! "tokens_2_5m"); reflexivity.
  - destruct (bm !! "tokens_250k"); reflexivity.
  - destruct (bm !! k) eqn:E; [done|].
    unfold limits_copy. simpl. by rewrite !lookup_insert_ne.
Qed.

Lemma lookup_limits_copy (b : string) :
  limits_copy !! b = JInt <$> daily_limit b.
Proof.
  unfold limits_copy, daily_limit. by rewrite list_to_map_fmap, lookup_fmap.
Qed.

Lemma fill_dict_limits : fill_dict DAILY_LIMITS limits_copy = limits_copy.
Proof.
  apply map_eq. intros k. rewrite lookup_fill_dict.
  by destruct (limits_copy !! k).
Qed.

Lemma fill_dict_idem (bm : gmap string json) :
  fill_dict DAILY_LIMITS (fill_dict DAILY_LIMITS bm)
  = fill_dict DAILY_LIMITS bm.
Proof.
  apply map_eq. intros k. rewrite !lookup_fill_dict.
  destruct (bm !! k); [done|]. by destruct (limits_copy !! k).
Qed.

(** ** The rollover policy *)

Section Rollover.

Variable today : string.

Lemma date_is_today_true (state : gmap string json) :
  date_is_today today state = true ↔ state !! "date" = Some (JStr today).
Proof.
  unfold date_is_today. split.
  - destruct (state !! "date") as [[| | |d| |]|]; try discriminate.
    intros H. apply bool_decide_eq_true in H. by subst.
  - intros ->. by apply bool_decide_eq_true.
Qed.

Lemma default_state_reconciled : reconciled today (default_state today).
Proof.
  split; [reflexivity|]. split; [|by eexists].
  exists limits_copy. split; [reflexivity | apply fill_dict_limits].
Qed.

Lemma bind_Ok {A B : Type} (a : A) (f : A → result B) : Ok a ≫= f = f a.
Proof. reflexivity. Qed.

Lemma reconcile_dict (m : gmap string json) :
  reconcile today (JDict m)
  = filled ← fill_missing DAILY_LIMITS
      (setdefault "buckets" (JDict limits_copy)
         (if date_is_today today m then m
          else <["plan_tokens_left" := get_or m "plan_tokens_left" (JInt 0)]>
                 (default_state today)));
    Ok (setdefault "plan_tokens_left" (JInt 0) filled).
Proof. reflexivity. Qed.

(** A stale record: everything but the plan entry is replaced. *)
Lemma reconcile_stale (m : gmap string json) :
  date_is_today today m = false →
  reconcile today (JDict m)
  = Ok (<["plan_tokens_left" := get_or m "plan_tokens_left" (JInt 0)]>
          (default_state today)).
Proof.
  intros Hd. rewrite reconcile_dict, Hd.
  set (p := get_or m "plan_tokens_left" (JInt 0)).
  set (st := <["plan_tokens_left" := p]> (default_state today)).
  assert (Hb : st !! "buckets" = Some (JDict limits_copy)) by reflexivity.
  rewrite (setdefault_present "buckets") by (rewrite Hb; eauto).
  rewrite (fill_missing_dict _ _ _ Hb), bind_Ok.
  rewrite fill_dict_limits, (insert_id _ _ _ Hb).
  rewrite setdefault_present; [done|]. subst st.
  rewrite lookup_insert_eq. eauto.
Qed.

(** A record of today whose buckets entry is a dict. *)
Lemma reconcile_current (m bm : gmap string json) :
  date_is_today today m = true →
  m !! "buckets" = Some (JDict bm) →
  reconcile today (JDict m)
  = Ok (setdefault "plan_tokens_left" (JInt 0)
          (<["buckets" := JDict (fill_dict DAILY_LIMITS bm)]> m)).
Proof.
  intros Hd Hb. rewrite reconcile_dict, Hd.
  rewrite (setdefault_present "buckets") by (rewrite Hb; eauto).
  by rewrite (fill_missing_dict _ _ _ Hb).
Qed.

(** A record of today without a buckets entry. *)
Lemma reconcile_current_no_buckets (m : gmap string json) :
  date_is_today today m = true →
  m !! "buckets" = None →
  reconcile today (JDict m)
  = Ok (setdefault "plan_tokens_left" (JInt 0)
          (<["buckets" := JDict limits_copy]> m)).
Proof.
  intros Hd Hb. rewrite reconcile_dict, Hd.
  unfold setdefault at 2. rewrite Hb.
  rewrite (fill_missing_dict _ _ limits_copy) by apply lookup_insert_eq.
  by rewrite bind_Ok, fill_dict_limits, insert_insert_eq.
Qed.

(** A record of today whose buckets entry is not a dict cannot be filled. *)
Lemma reconcile_current_bad_buckets (m : gmap string json) (v : json) :
  date_is_today today m = true →
  m !! "buckets" = Some v → dict_of v = Raise AttributeError →
  reconcile today (JDict m) = Raise AttributeError.
Proof.
  intros Hd Hb Hv. rewrite reconcile_dict, Hd.
  rewrite (setdefault_present "buckets") by (rewrite Hb; eauto).
  by rewrite (fill_missing_no_dict _ _ _ Hb Hv).
Qed.

Lemma reconcile_reconciled (raw : json) (state : gmap string json) :
  reconcile today raw = Ok state → reconciled today state.
Proof.
  destruct raw as [| | | | |m]; try discriminate.
  destruct (date_is_today today m) eqn:Hd.
  - destruct (m !! "buckets") as [v|] eqn:Hb.
    + destruct v as [| | | | |bm];
        try (rewrite (reconcile_current_bad_buckets m _ Hd Hb eq_refl);
             discriminate).
      rewrite (reconcile_current m bm Hd Hb). intros [= <-].
      apply date_is_today_true in Hd.
      split; [|split].
      * rewrite lookup_setdefault, decide_False by done.
        by rewrite lookup_insert_ne.
      * exists (fill_dict DAILY_LIMITS bm). split; [|apply fill_dict_idem].
        rewrite lookup_setdefault, decide_False by done.
        apply lookup_insert_eq.
      * apply setdefault_is_Some.
    + rewrite (reconcile_current_no_buckets m Hd Hb). intros [= <-].
      apply date_is_today_true in Hd.
      split; [|split].
      * rewrite lookup_setdefault, decide_False by done.
        by rewrite lookup_insert_ne.
      * exists limits_copy. split; [|apply fill_dict_limits].
        rewrite lookup_setdefault, decide_False by done.
        apply lookup_insert_eq.
      * apply setdefault_is_Some.
  - rewrite (reconcile_stale m Hd). intros [= <-].
    split; [reflexivity|]. split.
    + exists limits_copy. split; [reflexivity | apply fill_dict_limits].
    + rewrite lookup_insert_eq. eauto.
Qed.

(** Reconciling a reconciled record changes nothing. *)
Lemma reconcile_fixed (state : gmap string json) :
  reconciled today state → reconcile today (JDict state) = Ok state.
Proof.
  intros (Hd & (bm & Hb & Hfill) & Hp).
  apply date_is_today_true in Hd.
  rewrite (reconcile_current state bm Hd Hb), Hfill.
  by rewrite (insert_id _ _ _ Hb), setdefault_present.
Qed.

(** The plan entry of a reconciled record is the raw one, or 0 when the raw
    record has none. *)
Lemma reconcile_plan (m state : gmap string json) :
  reconcile today (JDict m) = Ok state →
  state !! "plan_tokens_left" = Some (get_or m "plan_tokens_left" (JInt 0)).
Proof.
  destruct (date_is_today today m) eqn:Hd.
  - destruct (m !! "buckets") as [v|] eqn:Hb.
    + destruct v as [| | | | |bm];
        try (rewrite (reconcile_current_bad_buckets m _ Hd Hb eq_refl);
             discriminate).
      rewrite (reconcile_current m bm Hd Hb). intros [= <-].
      rewrite lookup_setdefault, decide_True by done.
      by rewrite lookup_insert_ne.
    + rewrite (reconcile_current_no_buckets m Hd Hb). intros [= <-].
      rewrite lookup_setdefault, decide_True by done.
      by rewrite lookup_insert_ne.
  - rewrite (reconcile_stale m Hd). intros [= <-]. apply lookup_insert_eq.
Qed.

(** C4: the rollover policy is idempotent.  For every value [raw] that
    [json.load] can return and every date [today], reconciling the outcome of
    a reconciliation again gives that same outcome (the same record, or the
    same exception when [raw] cannot be reconciled at all). *)
Theorem reconcile_idempotent (raw : json) :
  reconcile today raw ≫= (λ state, reconcile today (JDict state))
  = reconcile today raw.
Proof.
  destruct (reconcile today raw) as [state|e] eqn:E; [|reflexivity].
  rewrite bind_Ok. apply reconcile_fixed. by eapply reconcile_reconciled.
Qed.

(** C5: what the rollover policy returns.
    - A raw record [m] whose date is not today becomes a record with exactly
      the three entries date, buckets and plan: it is dated today, its buckets
      dict holds every registry bucket at its daily limit and nothing else,
      and its plan entry is the raw one (0 if the raw record has none).
    - A raw record dated today, with buckets dict [bm] (empty if the entry is
      missing), keeps every entry; its buckets dict keeps every balance of
      [bm] and gains the registry buckets that [bm] lacks, at their daily
      limits; its plan entry is the raw one (0 if the raw record has none). *)
Theorem reconcile_rollover (m : gmap string json) :
  (date_is_today today m = false →
   ∃ state bm,
     reconcile today (JDict m) = Ok state
     ∧ state !! "date" = Some (JStr today)
     ∧ state !! "buckets" = Some (JDict bm)
     ∧ (∀ b, bm !! b = JInt <$> daily_limit b)
     ∧ state !! "plan_tokens_left"
       = Some (get_or m "plan_tokens_left" (JInt 0))
     ∧ (∀ k, is_Some (state !! k) →
             k = "date" ∨ k = "buckets" ∨ k = "plan_tokens_left"))
  ∧ (∀ bm,
       date_is_today today m = true →
       get_or m "buckets" (JDict ∅) = JDict bm →
       ∃ state bm',
         reconcile today (JDict m) = Ok state
         ∧ state !! "buckets" = Some (JDict bm')
         ∧ (∀ b, bm' !! b = match bm !! b with
                            | Some v => Some v
                            | None => JInt <$> daily_limit b
                            end)
         ∧ state !! "plan_tokens_left"
           = Some (get_or m "plan_tokens_left" (JInt 0))
         ∧ (∀ k, k ≠ "buckets" → k ≠ "plan_tokens_left" →
                 state !! k = m !! k)).
Proof.
  split.
  - intros Hd. eexists _, limits_copy.
    split; [apply (reconcile_stale m Hd)|].
    split; [reflexivity|]. split; [reflexivity|].
    split; [apply lookup_limits_copy|]. split; [apply lookup_insert_eq|].
    intros k [v Hk]. unfold default_state in Hk.
    rewrite !lookup_insert in Hk.
    repeat case_decide; subst; auto. by rewrite lookup_empty in Hk.
  - intros bm Hd Hb. unfold get_or in Hb.
    destruct (m !! "buckets") as [v|] eqn:Hm; simpl in Hb; subst.
    + eexists _, _. split; [apply (reconcile_current m bm Hd Hm)|].
      repeat split.
      * rewrite lookup_setdefault, decide_False by done.
        apply lookup_insert_eq.
      * intros b. rewrite lookup_fill_dict, lookup_limits_copy. done.
      * rewrite lookup_setdefault, decide_True by done.
        by rewrite lookup_insert_ne.
      * intros k Hk1 Hk2. rewrite lookup_setdefault, decide_False by done.
        by rewrite lookup_insert_ne.
    + injection Hb as <-.
      eexists _, _. split; [apply (reconcile_current_no_buckets m Hd Hm)|].
      repeat split.
      * rewrite lookup_setdefault, decide_False by done.
        apply lookup_insert_eq.
      * intros b. rewrite lookup_empty. apply lookup_limits_copy.
      * rewrite lookup_setdefault, decide_True by done.
        by rewrite lookup_insert_ne.
      * intros k Hk1 Hk2. rewrite lookup_setdefault, decide_False by done.
        by rewrite lookup_insert_ne.
Qed.

End Rollover.

(** ** Running a command *)

Arguments bucket_for_model : simpl never.

Lemma M_bind_Ok {A B : Type} (m : M A) (f : A → M B) (w w' : world) (a : A) :
  m w = (Ok a, w') → (m ≫= f) w = f a w'.
Proof. intros H. unfold mbind, M_bind. by rewrite H. Qed.

Lemma M_bind_Raise {A B : Type} (m : M A) (f : A → M B) (w w' : world)
    (e : exn) :
  m w = (Raise e, w') → (m ≫= f) w = (Raise e, w').
Proof. intros H. unfold mbind, M_bind. by rewrite H. Qed.

Section Commands.

Variable today : string.

(** [load_state] only reads. *)
Lemma load_state_world (w : world) : (load_state today w).2 = w.
Proof. unfold load_state. by destruct (disk w). Qed.

Lemma load_state_run (w : world) (state : gmap string json) :
  (load_state today w).1 = Ok state → load_state today w = (Ok state, w).
Proof.
  intros H. pose proof (load_state_world w) as Hw.
  destruct (load_state today w) as [r w']. simpl in *. by subst.
Qed.

Lemma load_state_fails (w : world) (e : exn) :
  (load_state today w).1 = Raise e → load_state today w = (Raise e, w).
Proof.
  intros H. pose proof (load_state_world w) as Hw.
  destruct (load_state today w) as [r w']. simpl in *. by subst.
Qed.

Lemma load_state_reconciled (w : world) (state : gmap string json) :
  (load_state today w).1 = Ok state → reconciled today state.
Proof.
  unfold load_state. destruct (disk w); simpl; try discriminate;
    try (intros [= <-]; apply default_state_reconciled).
  apply reconcile_reconciled.
Qed.

Lemma balance_of_inv (state : gmap string json) (bucket : string) (left : Z) :
  balance_of state bucket = Ok left →
  ∃ bm, state !! "buckets" = Some (JDict bm)
        ∧ py_int (get_or bm bucket (JInt 0)) = Ok left.
Proof.
  unfold balance_of, getitem.
  destruct (state !! "buckets") as [[| | | | |bm]|]; try discriminate.
  rewrite !bind_Ok. simpl. eauto.
Qed.

Lemma balance_of_debited (state : gmap string json) (bucket : string)
    (left after : Z) :
  balance_of state bucket = Ok left →
  balance_of (debited state bucket after) bucket = Ok after.
Proof.
  intros (bm & Hb & _)%balance_of_inv. unfold debited. rewrite Hb.
  unfold balance_of, getitem. rewrite lookup_insert_eq, !bind_Ok. simpl.
  unfold get_or. by rewrite lookup_insert_eq.
Qed.

Lemma balance_of_debited_ne (state : gmap string json) (bucket other : string)
    (left after : Z) :
  balance_of state bucket = Ok left → other ≠ bucket →
  balance_of (debited state bucket after) other = balance_of state other.
Proof.
  intros (bm & Hb & _)%balance_of_inv Hne. unfold debited. rewrite Hb.
  unfold balance_of, getitem. rewrite lookup_insert_eq, Hb, !bind_Ok. simpl.
  unfold get_or. by rewrite lookup_insert_ne.
Qed.

Lemma plan_of_debited (state : gmap string json) (bucket : string)
    (after : Z) :
  plan_of (debited state bucket after) = plan_of state.
Proof.
  unfold debited, plan_of, get_or.
  destruct (state !! "buckets") as [[| | | | |bm]|]; try reflexivity.
  by rewrite lookup_insert_ne.
Qed.

(** Stamping the date, as [save_state] does, touches neither the plan nor the
    balances. *)
Lemma plan_of_stamp (state : gmap string json) (d : json) :
  plan_of (<["date" := d]> state) = plan_of state.
Proof. unfold plan_of, get_or. by rewrite lookup_insert_ne. Qed.

Lemma balance_of_stamp (state : gmap string json) (d : json)
    (bucket : string) :
  balance_of (<["date" := d]> state) bucket = balance_of state bucket.
Proof. unfold balance_of, getitem. by rewrite lookup_insert_ne. Qed.

End Commands.

Section Admission.

Variable today : string.

Ltac run_load H :=
  unfold cmd_request, cmd_set_plan, cmd_reset;
  unfold mbind, M_bind, mret, M_ret, lift, print, save_state;
  rewrite (load_state_run today _ _ H).

(** *** The five ways [cmd_request] returns *)

Lemma request_by_plan (model_arg : string) (tokens : Z) (w : world)
    (state : gmap string json) (plan : Z) :
  (load_state today w).1 = Ok state →
  plan_of state = Ok plan →
  0 < plan →
  cmd_request today model_arg tokens w = (Ok 1, say PlanStillAvailable w).
Proof.
  intros Hload Hplan Hpos. unfold plan_of in Hplan. run_load Hload.
  rewrite Hplan. destruct (Z.ltb_spec 0 plan); [reflexivity | lia].
Qed.

Lemma request_unknown (model_arg : string) (tokens : Z) (w : world)
    (state : gmap string json) (plan : Z) :
  (load_state today w).1 = Ok state →
  plan_of state = Ok plan →
  plan ≤ 0 →
  bucket_for_model (lower (strip model_arg)) = None →
  cmd_request today model_arg tokens w
  = (Ok 1, say (NotOnAllowlist (lower (strip model_arg))) w).
Proof.
  intros Hload Hplan Hpos Hb. unfold plan_of in Hplan. run_load Hload.
  rewrite Hplan, Hb. destruct (Z.ltb_spec 0 plan); [lia | reflexivity].
Qed.

Lemma request_bad_cost (model_arg : string) (tokens : Z) (w : world)
    (state : gmap string json) (plan : Z) (bucket : string) :
  (load_state today w).1 = Ok state →
  plan_of state = Ok plan →
  plan ≤ 0 →
  bucket_for_model (lower (strip model_arg)) = Some bucket →
  tokens ≤ 0 →
  cmd_request today model_arg tokens w = (Ok 1, say TokensMustBePositive w).
Proof.
  intros Hload Hplan Hpos Hb Ht. unfold plan_of in Hplan. run_load Hload.
  rewrite Hplan, Hb. destruct (Z.ltb_spec 0 plan); [lia|].
  destruct (Z.leb_spec tokens 0); [reflexivity | lia].
Qed.

Lemma request_over_limit (model_arg : string) (tokens : Z) (w : world)
    (state : gmap string json) (plan : Z) (bucket : string) (left : Z) :
  (load_state today w).1 = Ok state →
  plan_of state = Ok plan →
  plan ≤ 0 →
  bucket_for_model (lower (strip model_arg)) = Some bucket →
  0 < tokens →
  balance_of state bucket = Ok left →
  left < tokens →
  ∃ remaining,
    py_int remaining = Ok left
    ∧ cmd_request today model_arg tokens w
      = (Ok 1, say (NotEnoughTokens bucket remaining tokens) w).
Proof.
  intros Hload Hplan Hpos Hb Ht (bm & Hbm & Hleft)%balance_of_inv Hlt.
  exists (get_or bm bucket (JInt 0)). split; [exact Hleft|].
  unfold plan_of in Hplan. run_load Hload.
  rewrite Hplan, Hb. destruct (Z.ltb_spec 0 plan); [lia|].
  destruct (Z.leb_spec tokens 0); [lia|].
  unfold getitem. rewrite Hbm. simpl. rewrite Hleft.
  destruct (Z.ltb_spec left tokens); [reflexivity | lia].
Qed.

Lemma request_admitted (model_arg : string) (tokens : Z) (w : world)
    (state : gmap string json) (plan : Z) (bucket : string) (left : Z) :
  (load_state today w).1 = Ok state →
  plan_of state = Ok plan →
  plan ≤ 0 →
  bucket_for_model (lower (strip model_arg)) = Some bucket →
  0 < tokens →
  balance_of state bucket = Ok left →
  tokens ≤ left →
  cmd_request today model_arg tokens w
  = (Ok 0, saved today (debited state bucket (left - tokens))
             (RequestAllowed tokens (left - tokens) bucket) w).
Proof.
  intros Hload Hplan Hpos Hb Ht (bm & Hbm & Hleft)%balance_of_inv Hle.
  unfold plan_of in Hplan. run_load Hload.
  rewrite Hplan, Hb. destruct (Z.ltb_spec 0 plan); [lia|].
  destruct (Z.leb_spec tokens 0); [lia|].
  unfold getitem, debited. rewrite Hbm. simpl. rewrite Hleft.
  destruct (Z.ltb_spec left tokens); [lia | reflexivity].
Qed.

(** *** The three ways it raises *)

Lemma request_load_raises (model_arg : string) (tokens : Z) (w : world)
    (e : exn) :
  (load_state today w).1 = Raise e →
  cmd_request today model_arg tokens w = (Raise e, w).
Proof.
  intros Hload. unfold cmd_request, mbind, M_bind.
  by rewrite (load_state_fails today _ _ Hload).
Qed.

Lemma request_plan_raises (model_arg : string) (tokens : Z) (w : world)
    (state : gmap string json) (e : exn) :
  (load_state today w).1 = Ok state →
  plan_of state = Raise e →
  cmd_request today model_arg tokens w = (Raise e, w).
Proof.
  intros Hload Hplan. unfold plan_of in Hplan. run_load Hload.
  by rewrite Hplan.
Qed.

Lemma request_balance_raises (model_arg : string) (tokens : Z) (w : world)
    (state : gmap string json) (plan : Z) (bucket : string) (e : exn) :
  (load_state today w).1 = Ok state →
  plan_of state = Ok plan →
  plan ≤ 0 →
  bucket_for_model (lower (strip model_arg)) = Some bucket →
  0 < tokens →
  balance_of state bucket = Raise e →
  cmd_request today model_arg tokens w = (Raise e, w).
Proof.
  intros Hload Hplan Hpos Hb Ht Hbal.
  unfold plan_of in Hplan. run_load Hload.
  rewrite Hplan, Hb. destruct (Z.ltb_spec 0 plan); [lia|].
  destruct (Z.leb_spec tokens 0); [lia|].
  unfold balance_of, getitem in Hbal. unfold getitem.
  destruct (state !! "buckets") as [v|]; [|by injection Hbal as <-].
  rewrite bind_Ok in Hbal.
  destruct (dict_of v) as [bm|e']; [|by injection Hbal as <-].
  rewrite bind_Ok in Hbal. by rewrite Hbal.
Qed.

(** Every run of [cmd_request] ends in exactly one of three ways: an
    exception before anything was printed or written; exit code 1 after one
    denial message and no write; exit code 0 after one write and the
    admission message. *)
Lemma request_cases (model_arg : string) (tokens : Z) (w : world) :
  (∃ e, cmd_request today model_arg tokens w = (Raise e, w))
  ∨ (∃ msg, is_denial msg = true
            ∧ cmd_request today model_arg tokens w = (Ok 1, say msg w))
  ∨ (∃ state bucket left,
       (load_state today w).1 = Ok state
       ∧ bucket_for_model (lower (strip model_arg)) = Some bucket
       ∧ balance_of state bucket = Ok left
       ∧ 0 < tokens ≤ left
       ∧ cmd_request today model_arg tokens w
         = (Ok 0, saved today (debited state bucket (left - tokens))
                    (RequestAllowed tokens (left - tokens) bucket) w)).
Proof.
  destruct (load_state today w).1 as [state|e] eqn:Hload;
    [|left; eauto using request_load_raises].
  destruct (plan_of state) as [plan|e] eqn:Hplan;
    [|left; eauto using request_plan_raises].
  destruct (Z.lt_ge_cases 0 plan) as [Hpos|Hpos].
  { right; left. exists PlanStillAvailable.
    eauto using request_by_plan. }
  destruct (bucket_for_model (lower (strip model_arg))) as [bucket|] eqn:Hb.
  2:{ right; left. exists (NotOnAllowlist (lower (strip model_arg))).
      eauto using request_unknown. }
  destruct (Z.lt_ge_cases 0 tokens) as [Ht|Ht].
  2:{ right; left. exists TokensMustBePositive.
      eauto using request_bad_cost. }
  destruct (balance_of state bucket) as [left|e] eqn:Hbal.
  2:{ left. eauto using request_balance_raises. }
  destruct (Z.lt_ge_cases left tokens) as [Hlt|Hle].
  - right; left.
    destruct (request_over_limit model_arg tokens w state plan bucket left)
      as (remaining & _ & Hrun); auto.
    exists (NotEnoughTokens bucket remaining tokens). auto.
  - right; right. exists state, bucket, left.
    repeat split; auto. eauto using request_admitted.
Qed.

(** A run that does not end with exit code 0 wrote nothing. *)
Lemma request_denied_no_write (model_arg : string) (tokens : Z) (w : world) :
  (cmd_request today model_arg tokens w).1 ≠ Ok 0 →
  disk (cmd_request today model_arg tokens w).2 = disk w
  ∧ writes (cmd_request today model_arg tokens w).2 = writes w.
Proof.
  destruct (request_cases model_arg tokens w)
    as [[e ->]|[(msg & _ & ->)|(st & b & left & _ & _ & _ & _ & ->)]];
    simpl; intros H; try done.
Qed.

(** C1: the checks of [cmd_request] come in a fixed order, one outcome per
    call, at most one write.  For a loaded record with a numeric plan entry:
    a positive plan allowance denies the request whatever the model and the
    cost; otherwise an unknown model denies it whatever the cost; otherwise a
    non-positive cost denies it whatever the balance; otherwise a cost above
    the balance denies it; otherwise it is admitted.  When the balance of the
    model's bucket is numeric too, the call ends with exactly one message, a denial with exit
    code 1 or the admission with exit code 0.  In every case the call either
    leaves the file and the write log alone, or returns 0 after exactly one
    write, the debited record. *)
Theorem request_check_order (model_arg : string) (tokens : Z) (w : world)
    (state : gmap string json) (plan : Z) :
  (load_state today w).1 = Ok state →
  plan_of state = Ok plan →
  let model := lower (strip model_arg) in
  let run := cmd_request today model_arg tokens w in
  (0 < plan → run = (Ok 1, say PlanStillAvailable w))
  ∧ (plan ≤ 0 → bucket_for_model model = None →
     run = (Ok 1, say (NotOnAllowlist model) w))
  ∧ (∀ bucket,
       plan ≤ 0 → bucket_for_model model = Some bucket → tokens ≤ 0 →
       run = (Ok 1, say TokensMustBePositive w))
  ∧ (∀ bucket left,
       plan ≤ 0 → bucket_for_model model = Some bucket → 0 < tokens →
       balance_of state bucket = Ok left → left < tokens →
       ∃ remaining,
         py_int remaining = Ok left
         ∧ run = (Ok 1, say (NotEnoughTokens bucket remaining tokens) w))
  ∧ (∀ bucket left,
       plan ≤ 0 → bucket_for_model model = Some bucket → 0 < tokens →
       balance_of state bucket = Ok left → tokens ≤ left →
       run = (Ok 0, saved today (debited state bucket (left - tokens))
                      (RequestAllowed tokens (left - tokens) bucket) w))
  ∧ ((∀ bucket, bucket_for_model model = Some bucket →
                ∃ left, balance_of state bucket = Ok left) →
     (∃ msg, is_denial msg = true ∧ run = (Ok 1, say msg w))
     ∨ (∃ record msg,
          is_denial msg = false
          ∧ run = (Ok 0, World (Holds record) (record :: writes w)
                           (msg :: printed w))))
  ∧ (disk run.2 = disk w ∧ writes run.2 = writes w
     ∨ run.1 = Ok 0
       ∧ ∃ record, disk run.2 = Holds record
                   ∧ writes run.2 = record :: writes w).
Proof.
  intros Hload Hplan model run. subst model run.
  split; [eauto using request_by_plan|].
  split; [eauto using request_unknown|].
  split; [eauto using request_bad_cost|].
  split; [eauto using request_over_limit|].
  split; [eauto using request_admitted|].
  destruct (request_cases model_arg tokens w)
    as [[e Hrun]|[(msg & Hmsg & Hrun)|(st & b & left & _ & _ & _ & _ & Hrun)]].
  - split; [|left; by rewrite Hrun].
    intros Hnum. exfalso.
    destruct (Z.lt_ge_cases 0 plan) as [Hpos|Hpos].
    { by rewrite (request_by_plan _ _ _ _ _ Hload Hplan Hpos) in Hrun. }
    destruct (bucket_for_model (lower (strip model_arg))) as [bucket|] eqn:Hb.
    2:{ by rewrite (request_unknown _ _ _ _ _ Hload Hplan Hpos Hb) in Hrun. }
    destruct (Z.lt_ge_cases 0 tokens) as [Ht|Ht].
    2:{ by rewrite (request_bad_cost _ _ _ _ _ _ Hload Hplan Hpos Hb Ht)
          in Hrun. }
    destruct (Hnum bucket eq_refl) as [left Hbal].
    destruct (Z.lt_ge_cases left tokens) as [Hlt|Hle].
    + destruct (request_over_limit _ _ _ _ _ _ _
                  Hload Hplan Hpos Hb Ht Hbal Hlt) as (r & _ & Hrun').
      by rewrite Hrun' in Hrun.
    + by rewrite (request_admitted _ _ _ _ _ _ _
                    Hload Hplan Hpos Hb Ht Hbal Hle) in Hrun.
  - rewrite Hrun. split; [eauto | by left].
  - rewrite Hrun. split.
    + intros _. right. eexists _, _. split; [|reflexivity]. reflexivity.
    + right. simpl. eauto.
Qed.

(** C2: the plan allowance short-circuits admission.  When the loaded record
    has a positive plan allowance, every request, whatever its model argument
    and its cost, returns exit code 1 with the plan message; the file and the
    write log are as before, so no balance changed. *)
Theorem request_denied_by_plan (model_arg : string) (tokens : Z) (w : world)
    (state : gmap string json) (plan : Z) :
  (load_state today w).1 = Ok state →
  plan_of state = Ok plan →
  0 < plan →
  cmd_request today model_arg tokens w
  = (Ok 1, World (disk w) (writes w) (PlanStillAvailable :: printed w)).
Proof. apply request_by_plan. Qed.

(** C3: admission keeps balances non-negative.  Take a loaded record with a
    numeric plan entry, a model of bucket [bucket], and that bucket's balance
    [left], not negative.  A request for more than [left] tokens returns exit
    code 1 and writes nothing; it is the over-limit denial unless the plan
    allowance already denied it.  A request that returns exit code 0 asked
    for a positive cost of at most [left], and the record it leaves in the
    file has [left - tokens], not negative, as the balance of [bucket], every
    other balance as before, and the plan allowance as before. *)
Theorem request_balance_nonneg (model_arg : string) (tokens : Z) (w : world)
    (state : gmap string json) (plan : Z) (bucket : string) (left : Z) :
  (load_state today w).1 = Ok state →
  plan_of state = Ok plan →
  bucket_for_model (lower (strip model_arg)) = Some bucket →
  balance_of state bucket = Ok left →
  0 ≤ left →
  let run := cmd_request today model_arg tokens w in
  (left < tokens →
   run.1 = Ok 1 ∧ disk run.2 = disk w ∧ writes run.2 = writes w
   ∧ (plan ≤ 0 →
      ∃ remaining,
        py_int remaining = Ok left
        ∧ printed run.2
          = NotEnoughTokens bucket remaining tokens :: printed w))
  ∧ (run.1 = Ok 0 →
     0 < tokens ≤ left
     ∧ 0 ≤ left - tokens
     ∧ ∃ record,
         disk run.2 = Holds (JDict record)
         ∧ writes run.2 = JDict record :: writes w
         ∧ balance_of record bucket = Ok (left - tokens)
         ∧ (∀ other, other ≠ bucket →
                     balance_of record other = balance_of state other)
         ∧ plan_of record = plan_of state).
Proof.
  intros Hload Hplan Hb Hbal Hleft run. subst run. split.
  - intros Hlt. destruct (Z.lt_ge_cases 0 plan) as [Hpos|Hpos].
    + rewrite (request_by_plan _ _ _ _ _ Hload Hplan Hpos). simpl.
      repeat split; auto. lia.
    + destruct (request_over_limit model_arg tokens w state plan bucket left)
        as (remaining & Hr & ->); auto; [lia|].
      simpl. repeat split; eauto.
  - destruct (request_cases model_arg tokens w)
      as [[e ->]|[(msg & _ & ->)|(st & b & l & Hl' & Hb' & Hbal' & Ht & ->)]];
      simpl; try done.
    intros _. rewrite Hload in Hl'. injection Hl' as <-.
    rewrite Hb in Hb'. injection Hb' as <-.
    rewrite Hbal in Hbal'. injection Hbal' as <-.
    split; [done|]. split; [lia|].
    eexists. split; [reflexivity|]. split; [reflexivity|].
    rewrite balance_of_stamp, plan_of_stamp, plan_of_debited.
    split; [by eapply balance_of_debited|]. split; [|done].
    intros other Hne. rewrite balance_of_stamp.
    by eapply balance_of_debited_ne.
Qed.

(** C10: a denied request leaves the state file as it was.  [load_state]
    changes nothing in the world; a request that does not return exit code 0
    leaves the file and the write log untouched; and when the file holds a
    stale record [m], the record was rolled over in memory (the loaded record
    is dated today) while a denied request still leaves [m] in the file. *)
Theorem request_denied_keeps_file (model_arg : string) (tokens : Z)
    (w : world) :
  let run := cmd_request today model_arg tokens w in
  (load_state today w).2 = w
  ∧ (run.1 ≠ Ok 0 → disk run.2 = disk w ∧ writes run.2 = writes w)
  ∧ (∀ m, disk w = Holds (JDict m) → date_is_today today m = false →
          run.1 = Ok 1 →
          (∃ state, (load_state today w).1 = Ok state
                    ∧ state !! "date" = Some (JStr today))
          ∧ disk run.2 = Holds (JDict m)
          ∧ writes run.2 = writes w).
Proof.
  intros run. subst run. split; [apply load_state_world|].
  split; [apply request_denied_no_write|].
  intros m Hm Hd Hrun. split.
  - unfold load_state. rewrite Hm. simpl. rewrite (reconcile_stale _ _ Hd).
    eexists. split; [reflexivity|]. reflexivity.
  - rewrite <- Hm. apply request_denied_no_write. by rewrite Hrun.
Qed.

End Admission.

(** ** Maintenance commands *)

Section Maintenance.

Variable today : string.

Lemma reconciled_set_plan (state : gmap string json) (v : json) :
  reconciled today state →
  reconciled today
    (<["date" := JStr today]> (<["plan_tokens_left" := v]> state)).
Proof.
  intros (_ & (bm & Hb & Hfill) & _). split; [apply lookup_insert_eq|].
  split.
  - exists bm. split; [|done]. by rewrite !lookup_insert_ne.
  - rewrite lookup_insert_ne by done. rewrite lookup_insert_eq. eauto.
Qed.

(** C7: [cmd_set_plan] rejects a negative allowance and stores any other.
    With [tokens < 0] it returns exit code 1 after the error message, without
    reading or writing the file.  With [0 ≤ tokens] and a loadable file it
    returns exit code 0 after writing the loaded record with its plan entry
    set to [tokens] (and the date stamped); that record has plan allowance
    [tokens], the balances of the loaded record, and is what the next load of
    the same day returns. *)
Theorem set_plan_rejects_negative (tokens : Z) (w : world) :
  (tokens < 0 →
   cmd_set_plan today tokens w
   = (Ok 1, World (disk w) (writes w) (PlanCannotBeNegative :: printed w)))
  ∧ (∀ state,
       0 ≤ tokens →
       (load_state today w).1 = Ok state →
       let record :=
         <["date" := JStr today]>
           (<["plan_tokens_left" := JInt tokens]> state) in
       cmd_set_plan today tokens w
       = (Ok 0, World (Holds (JDict record)) (JDict record :: writes w)
                  (PlanSet tokens :: printed w))
       ∧ plan_of record = Ok tokens
       ∧ (∀ bucket, balance_of record bucket = balance_of state bucket)
       ∧ (load_state today (cmd_set_plan today tokens w).2).1 = Ok record).
Proof.
  split.
  - intros Hneg. unfold cmd_set_plan.
    destruct (Z.ltb_spec tokens 0); [reflexivity | lia].
  - intros state Hpos Hload record.
    assert (Hrun : cmd_set_plan today tokens w
                   = (Ok 0, World (Holds (JDict record))
                              (JDict record :: writes w)
                              (PlanSet tokens :: printed w))).
    { unfold cmd_set_plan. destruct (Z.ltb_spec tokens 0); [lia|].
      unfold mbind, M_bind. by rewrite (load_state_run today _ _ Hload). }
    split; [exact Hrun|]. split; [|split].
    + subst record. rewrite plan_of_stamp. unfold plan_of, get_or.
      by rewrite lookup_insert_eq.
    + intros bucket. subst record. rewrite balance_of_stamp.
      unfold balance_of, getitem. by rewrite lookup_insert_ne.
    + rewrite Hrun. unfold load_state. simpl.
      apply reconcile_fixed, reconciled_set_plan.
      by eapply load_state_reconciled.
Qed.

(** C8: [cmd_reset] restores the buckets and carries the plan allowance
    forward.  On a loadable file it returns exit code 0 after writing a record
    dated today whose buckets dict holds every registry bucket at its daily
    limit and nothing else, and whose plan entry is that of the loaded record;
    when the file held a record [m], that entry is the plan entry of [m]
    itself (0 if [m] has none), whether or not loading rolled [m] over. *)
Theorem reset_restores_buckets (w : world) (prev : gmap string json) :
  (load_state today w).1 = Ok prev →
  ∃ record bm,
    cmd_reset today w
    = (Ok 0, World (Holds (JDict record)) (JDict record :: writes w)
               (BucketsReset :: printed w))
    ∧ record !! "date" = Some (JStr today)
    ∧ record !! "buckets" = Some (JDict bm)
    ∧ (∀ b, bm !! b = JInt <$> daily_limit b)
    ∧ record !! "plan_tokens_left" = prev !! "plan_tokens_left"
    ∧ (∀ m, disk w = Holds (JDict m) →
            record !! "plan_tokens_left"
            = Some (get_or m "plan_tokens_left" (JInt 0))).
Proof.
  intros Hload. eexists _, limits_copy. split.
  { unfold cmd_reset, mbind, M_bind.
    rewrite (load_state_run today _ _ Hload). reflexivity. }
  split; [apply lookup_insert_eq|].
  split; [by rewrite !lookup_insert_ne|].
  split; [apply lookup_limits_copy|].
  assert (Hprev : Some (get_or prev "plan_tokens_left" (JInt 0))
                  = prev !! "plan_tokens_left").
  { destruct (load_state_reconciled today _ _ Hload) as (_ & _ & [p Hp]).
    unfold get_or. by rewrite Hp. }
  split.
  - rewrite lookup_insert_ne by done. by rewrite lookup_insert_eq.
  - intros m Hm. rewrite lookup_insert_ne by done.
    rewrite lookup_insert_eq, Hprev.
    unfold load_state in Hload. rewrite Hm in Hload. simpl in Hload.
    by apply reconcile_plan in Hload.
Qed.

(** C6: what [load_state] does with a damaged state file.  A missing file, a
    file that cannot be read and a file that is not JSON each give the
    default record.  A file that is not UTF-8, a file holding a JSON value
    that is not an object (here the empty array) and a record of today whose
    buckets entry is not an object (here null) make [load_state] raise, and
    [cmd_request] with it. *)
Theorem load_state_damaged_file (ws : list json) (ps : list message) :
  load_state today (World Missing ws ps)
  = (Ok (default_state today), World Missing ws ps)
  ∧ load_state today (World Unreadable ws ps)
    = (Ok (default_state today), World Unreadable ws ps)
  ∧ load_state today (World BadJSON ws ps)
    = (Ok (default_state today), World BadJSON ws ps)
  ∧ load_state today (World BadUnicode ws ps)
    = (Raise UnicodeDecodeError, World BadUnicode ws ps)
  ∧ load_state today (World (Holds (JList [])) ws ps)
    = (Raise AttributeError, World (Holds (JList [])) ws ps)
  ∧ (load_state today
       (World (Holds (JDict (<["date" := JStr today]>
                               (<["buckets" := JNull]> ∅)))) ws ps)).1
    = Raise AttributeError
  ∧ cmd_request today "gpt-5" 100 (World (Holds (JList [])) ws ps)
    = (Raise AttributeError, World (Holds (JList [])) ws ps).
Proof.
  repeat (split; [reflexivity|]). split.
  - unfold load_state. simpl.
    eapply reconcile_current_bad_buckets; [|reflexivity|reflexivity].
    apply date_is_today_true. apply lookup_insert_eq.
  - by apply request_load_raises.
Qed.

End Maintenance.

(** ** Normalising the model argument *)























(** ** The scenarios of the test suite and of the specification *)

Example test_bucket_for_model :
  bucket_for_model "gpt-5" = Some "tokens_250k"
  ∧ bucket_for_model "gpt-5.1-codex-mini" = Some "tokens_2_5m"
  ∧ bucket_for_model "gpt-1" = None.
Proof. by vm_compute. Qed.

Example test_request_consumes_tokens :
  let run := cmd_request "2026-01-02" "gpt-5" 100 fresh_world in
  run.1 = Ok 0
  ∧ (state ← (load_state "2026-01-02" run.2).1;
     balance_of state "tokens_250k") = Ok (250000 - 100).
Proof. by vm_compute. Qed.

Example test_request_rejects_when_over_limit :
  let run := cmd_request "2026-01-02" "gpt-5" (250000 + 1) fresh_world in
  run.1 = Ok 1 ∧ run.2 = say (NotEnoughTokens "tokens_250k" (JInt 250000)
                                 250001) fresh_world.
Proof. by vm_compute. Qed.

Example stale_world_rolls_over :
  (load_state "2026-01-02" stale_world).1 = Ok rolled_record
  ∧ balance_of rolled_record "tokens_250k" = Ok 250000
  ∧ plan_of rolled_record = Ok 500.
Proof. by vm_compute. Qed.

(** ** The theorems at work on the sample worlds *)

Lemma request_check_order_witness :
  cmd_request "2026-01-02" " GPT-5 " 100 fresh_world
  = (Ok 0, saved "2026-01-02"
             (debited (default_state "2026-01-02") "tokens_250k"
                (250000 - 100))
             (RequestAllowed 100 (250000 - 100) "tokens_250k") fresh_world).
Proof.
  destruct (request_check_order "2026-01-02" " GPT-5 " 100 fresh_world
              (default_state "2026-01-02") 0 eq_refl eq_refl)
    as (_ & _ & _ & _ & Hadmit & _).
  apply (Hadmit "tokens_250k" 250000);
    [lia | reflexivity | lia | reflexivity | lia].
Defined.

Lemma request_denied_by_plan_witness :
  plan_of rolled_record = Ok 500
  ∧ cmd_request "2026-01-02" "gpt-1" (-3) stale_world
    = (Ok 1, World (disk stale_world) (writes stale_world)
               (PlanStillAvailable :: printed stale_world)).
Proof.
  split; [reflexivity|].
  apply (request_denied_by_plan "2026-01-02" "gpt-1" (-3) stale_world
           rolled_record 500); [reflexivity | reflexivity | lia].
Defined.

Lemma request_balance_nonneg_witness :
  (cmd_request "2026-01-02" "gpt-5" 250001 fresh_world).1 = Ok 1
  ∧ disk (cmd_request "2026-01-02" "gpt-5" 250001 fresh_world).2 = Missing.
Proof.
  destruct (request_balance_nonneg "2026-01-02" "gpt-5" 250001 fresh_world
              (default_state "2026-01-02") 0 "tokens_250k" 250000
              eq_refl eq_refl eq_refl eq_refl ltac:(lia))
    as [Hover _].
  destruct (Hover ltac:(lia)) as (Hcode & Hdisk & _).
  split; [exact Hcode | exact Hdisk].
Defined.

Lemma request_denied_keeps_file_witness :
  date_is_today "2026-01-02" yesterday_record = false
  ∧ disk (cmd_request "2026-01-02" "gpt-5" 5 stale_world).2
    = Holds (JDict yesterday_record).
Proof.
  split; [reflexivity|].
  destruct (request_denied_keeps_file "2026-01-02" "gpt-5" 5 stale_world)
    as (_ & _ & Hstale).
  destruct (Hstale yesterday_record eq_refl eq_refl eq_refl)
    as (_ & Hdisk & _).
  exact Hdisk.
Defined.

Lemma reconcile_rollover_witness :
  (∃ state,
     reconcile "2026-01-02" (JDict yesterday_record) = Ok state
     ∧ state !! "date" = Some (JStr "2026-01-02")
     ∧ state !! "plan_tokens_left" = Some (JInt 500))
  ∧ (∃ state bm,
       reconcile "2026-01-01" (JDict yesterday_record) = Ok state
       ∧ state !! "buckets" = Some (JDict bm)
       ∧ bm !! "tokens_250k" = Some (JInt 10)
       ∧ bm !! "tokens_2_5m" = Some (JInt 2500000)).
Proof.
  split.
  - destruct (reconcile_rollover "2026-01-02" yesterday_record)
      as [Hstale _].
    destruct (Hstale eq_refl)
      as (state & bm & Hrun & Hdate & _ & _ & Hplan & _).
    exists state. split; [exact Hrun|]. split; [exact Hdate | exact Hplan].
  - destruct (reconcile_rollover "2026-01-01" yesterday_record)
      as [_ Hcur].
    destruct (Hcur (<["tokens_250k" := JInt 10]> ∅) eq_refl eq_refl)
      as (state & bm & Hrun & Hb & Hfill & _).
    exists state, bm. split; [exact Hrun|]. split; [exact Hb|].
    split; [exact (Hfill "tokens_250k") | exact (Hfill "tokens_2_5m")].
Defined.

Lemma set_plan_rejects_negative_witness :
  cmd_set_plan "2026-01-02" (-5) stale_world
  = (Ok 1, World (disk stale_world) (writes stale_world)
             (PlanCannotBeNegative :: printed stale_world))
  ∧ plan_of (<["date" := JStr "2026-01-02"]>
               (<["plan_tokens_left" := JInt 7]> rolled_record)) = Ok 7.
Proof.
  split.
  - apply (proj1 (set_plan_rejects_negative "2026-01-02" (-5) stale_world)).
    lia.
  - destruct (proj2 (set_plan_rejects_negative "2026-01-02" 7 stale_world)
                rolled_record ltac:(lia) eq_refl) as (_ & Hplan & _).
    exact Hplan.
Defined.

Lemma reset_restores_buckets_witness :
  ∃ record,
    disk (cmd_reset "2026-01-02" stale_world).2 = Holds (JDict record)
    ∧ record !! "plan_tokens_left" = Some (JInt 500).
Proof.
  destruct (reset_restores_buckets "2026-01-02" stale_world rolled_record
              eq_refl) as (record & bm & Hrun & _ & _ & _ & _ & Hplan).
  exists record. split; [by rewrite Hrun|].
  exact (Hplan yesterday_record eq_refl).
Defined.


(** * More of the guard *)

(** ** The state store *)

Section Store.

Variable today : string.

Lemma load_state_disk (w w' : world) :
  disk w = disk w' → (load_state today w).1 = (load_state today w').1.
Proof. unfold load_state. intros ->. by destruct (disk w'). Qed.

Lemma fill_dict_fixed (bm : gmap string json) :
  (∀ b, is_Some (daily_limit b) → is_Some (bm !! b)) →
  fill_dict DAILY_LIMITS bm = bm.
Proof.
  intros Hall. apply map_eq. intros k. rewrite lookup_fill_dict.
  destruct (bm !! k) eqn:E; [done|].
  rewrite lookup_limits_copy. destruct (daily_limit k) eqn:Hk; [|done].
  destruct (Hall k) as [v Hv]; [eauto | congruence].
Qed.

Lemma fill_dict_has (bm : gmap string json) (b : string) :
  fill_dict DAILY_LIMITS bm = bm → is_Some (daily_limit b) →
  is_Some (bm !! b).
Proof.
  intros Hfix [l Hl]. rewrite <- Hfix, lookup_fill_dict.
  destruct (bm !! b); [eauto|]. rewrite lookup_limits_copy, Hl. eauto.
Qed.

(** When [load_state] returns a record and when it raises. *)
Lemma load_state_cases (w : world) :
  (loads today (disk w) = true →
   ∃ state, load_state today w = (Ok state, w) ∧ reconciled today state)
  ∧ (loads today (disk w) = false →
     ∃ e, load_state today w = (Raise e, w)
          ∧ (e = AttributeError ∨ e = UnicodeDecodeError)).
Proof.
  split; intros Hl.
  - assert (∃ state, (load_state today w).1 = Ok state) as [state Hs].
    { unfold load_state. destruct (disk w) as [| | | |j]; simpl in *;
        eauto; try done.
      destruct j as [| | | | |m]; try done.
      destruct (date_is_today today m) eqn:Hd.
      - destruct (m !! "buckets") as [[| | | | |bm]|] eqn:Hb; try done.
        + rewrite (reconcile_current _ _ _ Hd Hb). eauto.
        + rewrite (reconcile_current_no_buckets _ _ Hd Hb). eauto.
      - rewrite (reconcile_stale _ _ Hd). eauto. }
    exists state. split; [by apply load_state_run|].
    by eapply load_state_reconciled.
  - assert (∃ e, (load_state today w).1 = Raise e
                 ∧ (e = AttributeError ∨ e = UnicodeDecodeError))
      as (e & He & Hkind).
    { unfold load_state. destruct (disk w) as [| | | |j]; simpl in *;
        eauto; try done.
      destruct j as [| | | | |m]; eauto.
      destruct (date_is_today today m) eqn:Hd; [|done].
      destruct (m !! "buckets") as [v|] eqn:Hb; [|done].
      exists AttributeError. split; [|by left].
      destruct v; try done;
        by apply (reconcile_current_bad_buckets _ _ _ Hd Hb). }
    exists e. split; [by apply load_state_fails | done].
Qed.

End Store.

(** ** What the commands write *)

Section Writes.

Variable today : string.

Lemma reconciled_stamp (state bm : gmap string json) :
  state !! "buckets" = Some (JDict bm) →
  (∀ b, is_Some (daily_limit b) → is_Some (bm !! b)) →
  is_Some (state !! "plan_tokens_left") →
  reconciled today (<["date" := JStr today]> state).
Proof.
  intros Hb Hall Hp. split; [apply lookup_insert_eq|]. split.
  - exists bm. split; [by rewrite lookup_insert_ne|].
    by apply fill_dict_fixed.
  - by rewrite lookup_insert_ne.
Qed.

Lemma reconciled_debited (state : gmap string json) (bucket : string)
    (after : Z) :
  reconciled today state →
  reconciled today (<["date" := JStr today]> (debited state bucket after)).
Proof.
  intros (_ & (bm & Hb & Hfill) & Hp). unfold debited. rewrite Hb.
  apply (reconciled_stamp _ (<[bucket := JInt after]> bm)).
  - apply lookup_insert_eq.
  - intros b Hl. rewrite lookup_insert. case_decide; [eauto|].
    by apply fill_dict_has.
  - by rewrite lookup_insert_ne.
Qed.

Lemma reconciled_reset (v : json) :
  reconciled today
    (<["date" := JStr today]>
       (<["plan_tokens_left" := v]> (default_state today))).
Proof. apply reconciled_set_plan, default_state_reconciled. Qed.

Lemma load_saved (state : gmap string json) (msg : message) (w : world) :
  reconciled today (<["date" := JStr today]> state) →
  load_state today (saved today state msg w)
  = (Ok (<["date" := JStr today]> state), saved today state msg w).
Proof.
  intros Hr. apply load_state_run. unfold load_state, saved. simpl.
  by apply reconcile_fixed.
Qed.

Lemma set_plan_run (tokens : Z) (w : world) (state : gmap string json) :
  0 ≤ tokens →
  (load_state today w).1 = Ok state →
  cmd_set_plan today tokens w
  = (Ok 0, saved today (<["plan_tokens_left" := JInt tokens]> state)
             (PlanSet tokens) w).
Proof.
  intros Hpos Hload. unfold cmd_set_plan.
  destruct (Z.ltb_spec tokens 0); [lia|].
  unfold mbind, M_bind. by rewrite (load_state_run today _ _ Hload).
Qed.

Lemma set_plan_negative (tokens : Z) (w : world) :
  tokens < 0 →
  cmd_set_plan today tokens w = (Ok 1, say PlanCannotBeNegative w).
Proof.
  intros Hneg. unfold cmd_set_plan.
  destruct (Z.ltb_spec tokens 0); [reflexivity | lia].
Qed.

Lemma set_plan_raises (tokens : Z) (w : world) (e : exn) :
  0 ≤ tokens →
  (load_state today w).1 = Raise e →
  cmd_set_plan today tokens w = (Raise e, w).
Proof.
  intros Hpos Hload. unfold cmd_set_plan.
  destruct (Z.ltb_spec tokens 0); [lia|].
  unfold mbind, M_bind. by rewrite (load_state_fails today _ _ Hload).
Qed.

Lemma reset_run (w : world) (prev : gmap string json) :
  (load_state today w).1 = Ok prev →
  cmd_reset today w
  = (Ok 0, saved today
             (<["plan_tokens_left" :=
                  get_or prev "plan_tokens_left" (JInt 0)]>
                (default_state today))
             BucketsReset w).
Proof.
  intros Hload. unfold cmd_reset, mbind, M_bind.
  by rewrite (load_state_run today _ _ Hload).
Qed.

Lemma reset_raises (w : world) (e : exn) :
  (load_state today w).1 = Raise e → cmd_reset today w = (Raise e, w).
Proof.
  intros Hload. unfold cmd_reset, mbind, M_bind.
  by rewrite (load_state_fails today _ _ Hload).
Qed.

(** [cmd_status] changes nothing in the world. *)
Lemma status_world (allowlist : bool) (w : world) :
  (cmd_status today allowlist w).2 = w.
Proof.
  unfold cmd_status, mbind, M_bind, lift, mret, M_ret.
  pose proof (load_state_world today w) as Hw.
  destruct (load_state today w) as [[state|e] w']; simpl in Hw; subst;
    [|done].
  destruct (getitem state "date"); [|done].
  destruct (getitem state "plan_tokens_left"); [|done].
  destruct (getitem state "buckets") as [v|]; [|done].
  by destruct (dict_of v).
Qed.

Lemma main_status_world (allowlist : bool) (w : world) :
  (main today (StatusArgs allowlist) w).2 = w.
Proof.
  pose proof (status_world allowlist w) as Hw.
  unfold main, mbind, M_bind, mret, M_ret.
  by destruct (cmd_status today allowlist w) as [[r|e] w'].
Qed.

(** One run either leaves the file alone or leaves a reconciled record in
    it. *)
Lemma main_disk (args : arguments) (w : world) :
  disk (main today args w).2 = disk w
  ∨ ∃ state msg,
      reconciled today (<["date" := JStr today]> state)
      ∧ (main today args w).2 = saved today state msg w.
Proof.
  destruct args as [allowlist|tokens| |model tokens].
  - left. by rewrite main_status_world.
  - simpl. destruct (Z.lt_ge_cases tokens 0) as [Hneg|Hpos].
    { left. by rewrite set_plan_negative. }
    destruct (load_state today w).1 as [state|e] eqn:Hload.
    + right. rewrite (set_plan_run _ _ _ Hpos Hload). eexists _, _.
      split; [|reflexivity].
      apply reconciled_set_plan. by eapply load_state_reconciled.
    + left. by rewrite (set_plan_raises _ _ _ Hpos Hload).
  - simpl. destruct (load_state today w).1 as [prev|e] eqn:Hload.
    + right. rewrite (reset_run _ _ Hload). eexists _, _.
      split; [|reflexivity]. apply reconciled_reset.
    + left. by rewrite (reset_raises _ _ Hload).
  - simpl. destruct (request_cases today model tokens w)
      as [[e ->]|[(msg & _ & ->)|(st & b & l & Hl & _ & _ & _ & ->)]];
      [by left | by left |].
    right. eexists _, _. split; [|reflexivity].
    apply reconciled_debited. by eapply load_state_reconciled.
Qed.

End Writes.

(** ** Sessions *)

Section Sessions.

Variable today : string.

Lemma reconciled_loads (day : string) (record : gmap string json) :
  reconciled today record → loads day (Holds (JDict record)) = true.
Proof.
  intros (_ & (bm & Hb & _) & _). simpl. rewrite Hb.
  by destruct (date_is_today day record).
Qed.

Lemma charge_not_request (bucket : string) (args : arguments) (w : world) :
  (∀ model tokens, args ≠ RequestArgs model tokens) →
  charge today bucket args w = 0.
Proof.
  intros Hne. unfold charge. destruct args; try done.
  by destruct (Hne model tokens).
Qed.

(** What one run that is not a reset does to a loadable world: the world
    stays loadable and every balance goes down by what the run charged. *)
Lemma main_balance (args : arguments) (w : world)
    (state : gmap string json) :
  (load_state today w).1 = Ok state →
  args ≠ ResetArgs →
  ∃ state',
    (load_state today (main today args w).2).1 = Ok state'
    ∧ ∀ bucket balance,
        balance_of state bucket = Ok balance →
        balance_of state' bucket
        = Ok (balance - charge today bucket args w)
        ∧ 0 ≤ charge today bucket args w
        ∧ (charge today bucket args w = 0
           ∨ charge today bucket args w ≤ balance).
Proof.
  intros Hload Hreset.
  destruct args as [allowlist|tokens| |model tokens]; [| |done|].
  - exists state. rewrite main_status_world. split; [done|].
    intros bucket balance Hbal.
    rewrite charge_not_request by done.
    rewrite Z.sub_0_r. auto with lia.
  - assert (Hcharge : ∀ bucket,
              charge today bucket (SetPlanArgs tokens) w = 0)
      by (intros; by apply charge_not_request).
    change (main today (SetPlanArgs tokens) w)
      with (cmd_set_plan today tokens w).
    destruct (Z.lt_ge_cases tokens 0) as [Hneg|Hpos].
    + exists state. rewrite (set_plan_negative _ _ _ Hneg).
      split; [by rewrite <- Hload; apply load_state_disk|].
      intros bucket balance Hbal. rewrite Hcharge, Z.sub_0_r.
      auto with lia.
    + rewrite (set_plan_run _ _ _ _ Hpos Hload). cbn [snd].
      eexists. split.
      { rewrite load_saved; [reflexivity|].
        apply reconciled_set_plan. by eapply load_state_reconciled. }
      intros bucket balance Hbal. rewrite Hcharge, Z.sub_0_r.
      split; [|auto with lia].
      rewrite balance_of_stamp. rewrite <- Hbal.
      unfold balance_of, getitem. by rewrite lookup_insert_ne.
  - unfold charge.
    change (main today (RequestArgs model tokens) w)
      with (cmd_request today model tokens w).
    destruct (request_cases today model tokens w)
      as [[e Hrun]|[(msg & _ & Hrun)|
                    (st & b & l & Hl & Hb & Hbal' & Ht & Hrun)]];
      rewrite Hrun; cbn [fst snd].
    + exists state. split; [done|]. intros bucket balance Hbal.
      rewrite Z.sub_0_r. auto with lia.
    + exists state.
      split; [by rewrite <- Hload; apply load_state_disk|].
      intros bucket balance Hbal. rewrite Z.sub_0_r. auto with lia.
    + rewrite Hload in Hl. injection Hl as <-.
      eexists. split.
      { rewrite load_saved; [reflexivity|].
        apply reconciled_debited. by eapply load_state_reconciled. }
      intros bucket balance Hbal. rewrite balance_of_stamp, Hb.
      case_bool_decide as Heq.
      * injection Heq as ->. rewrite Hbal' in Hbal. injection Hbal as <-.
        split; [by eapply balance_of_debited | lia].
      * assert (bucket ≠ b) by congruence.
        rewrite (balance_of_debited_ne _ _ _ _ _ Hbal') by done.
        rewrite Z.sub_0_r. auto with lia.
Qed.

End Sessions.

(** ** Saving and loading *)

Section RoundTrips.

Variable today : string.

(** X1: a record that has a plan entry and a buckets dict with every registry
    bucket comes back from [load_state] on the day it was saved exactly as
    [save_state] wrote it, date stamp included. *)
Theorem save_load_same_day (state bm : gmap string json) (w : world) :
  state !! "buckets" = Some (JDict bm) →
  (∀ b, is_Some (daily_limit b) → is_Some (bm !! b)) →
  is_Some (state !! "plan_tokens_left") →
  (load_state today (save_state today state w).2).1
  = Ok (<["date" := JStr today]> state)
  ∧ disk (save_state today state w).2
    = Holds (JDict (<["date" := JStr today]> state)).
Proof.
  intros Hb Hall Hp. split; [|reflexivity].
  unfold load_state, save_state. simpl.
  apply reconcile_fixed. by eapply reconciled_stamp.
Qed.

(** X2: whatever record was saved, the first load on another day returns the
    default record of that day with the saved plan entry (0 if the saved
    record had none): all balances of the day before are forgotten. *)
Theorem save_load_next_day (day : string) (state : gmap string json)
    (w : world) :
  day ≠ today →
  (load_state day (save_state today state w).2).1
  = Ok (<["plan_tokens_left" := get_or state "plan_tokens_left" (JInt 0)]>
          (default_state day)).
Proof.
  intros Hday. unfold load_state, save_state. simpl.
  rewrite reconcile_stale.
  - unfold get_or. by rewrite lookup_insert_ne.
  - unfold date_is_today. rewrite lookup_insert_eq.
    apply bool_decide_eq_false. congruence.
Qed.

(** X3: a request that returned 0 is what the next load of the day sees: the
    file holds one record, [load_state] returns that very record, and in it
    the bucket of the model has the balance of before less the cost. *)
Theorem request_admitted_persists (model_arg : string) (tokens : Z)
    (w : world) :
  let run := cmd_request today model_arg tokens w in
  run.1 = Ok 0 →
  ∃ state bucket left record,
    (load_state today w).1 = Ok state
    ∧ bucket_for_model (lower (strip model_arg)) = Some bucket
    ∧ balance_of state bucket = Ok left
    ∧ disk run.2 = Holds (JDict record)
    ∧ (load_state today run.2).1 = Ok record
    ∧ balance_of record bucket = Ok (left - tokens).
Proof.
  intros run Hok. subst run.
  destruct (request_cases today model_arg tokens w)
    as [[e Hrun]|[(msg & _ & Hrun)|
                  (st & b & l & Hl & Hb & Hbal & Ht & Hrun)]];
    rewrite Hrun in Hok |- *; try done.
  eexists st, b, l, _. split; [done|]. split; [done|]. split; [done|].
  split; [reflexivity|]. cbn [snd]. split.
  - rewrite load_saved; [reflexivity|].
    apply reconciled_debited. by eapply load_state_reconciled.
  - rewrite balance_of_stamp. by eapply balance_of_debited.
Qed.

End RoundTrips.

(** ** Quota over a session *)

Section Quota.

Variable today : string.

Lemma session_balance (runs : list arguments) (w : world)
    (state : gmap string json) (bucket : string) (balance : Z) :
  (load_state today w).1 = Ok state →
  balance_of state bucket = Ok balance →
  Forall (λ args, args ≠ ResetArgs) runs →
  ∃ state',
    (load_state today (session today runs w)).1 = Ok state'
    ∧ balance_of state' bucket = Ok (balance - spent today bucket runs w)
    ∧ 0 ≤ spent today bucket runs w
    ∧ (0 ≤ balance → spent today bucket runs w ≤ balance).
Proof.
  intros Hload Hbal Hruns. revert w state balance Hload Hbal.
  induction Hruns as [|args rest Hargs _ IH]; intros w state balance Hload Hbal.
  - exists state. simpl. rewrite Z.sub_0_r. auto with lia.
  - destruct (main_balance today args w state Hload Hargs)
      as (state1 & Hload1 & Hstep).
    destruct (Hstep bucket balance Hbal) as (Hbal1 & Hpos & Hle).
    destruct (IH _ _ _ Hload1 Hbal1) as (state' & Hload' & Hbal' & Hpos' & Hle').
    exists state'. simpl. split; [exact Hload'|]. split.
    + rewrite Hbal'. f_equal. lia.
    + lia.
Qed.

(** X4: the tokens charged to a bucket over a session without reset are what
    its balance lost.  From a loadable world where the bucket has balance
    [balance], however many status, set-plan and request runs follow, the
    world stays loadable, the balance at the end is [balance] less the tokens
    charged, the tokens charged are not negative, and when [balance] is not
    negative they do not exceed it. *)
Theorem session_accounting (runs : list arguments) (w : world)
    (state : gmap string json) (bucket : string) (balance : Z) :
  (load_state today w).1 = Ok state →
  balance_of state bucket = Ok balance →
  Forall (λ args, args ≠ ResetArgs) runs →
  ∃ state',
    (load_state today (session today runs w)).1 = Ok state'
    ∧ balance_of state' bucket = Ok (balance - spent today bucket runs w)
    ∧ 0 ≤ spent today bucket runs w
    ∧ (0 ≤ balance → spent today bucket runs w ≤ balance).
Proof. apply session_balance. Qed.

Lemma daily_limit_nonneg (bucket : string) (limit : Z) :
  daily_limit bucket = Some limit → 0 ≤ limit.
Proof.
  unfold daily_limit. intros H. apply elem_of_list_to_map_2 in H.
  unfold DAILY_LIMITS in H.
  repeat (apply elem_of_cons in H as [[= -> ->]|H]; [lia|]).
  by apply elem_of_nil in H.
Qed.

Lemma balance_of_default (v : json) (bucket : string) (limit : Z) :
  daily_limit bucket = Some limit →
  balance_of (<["plan_tokens_left" := v]> (default_state today)) bucket
  = Ok limit.
Proof.
  intros Hl. unfold balance_of, getitem.
  rewrite lookup_insert_ne by done.
  change (default_state today !! "buckets") with (Some (JDict limits_copy)).
  simpl. unfold get_or. by rewrite lookup_limits_copy, Hl.
Qed.

(** The record [load_state] returns on a new day: no file yet, or a record
    of another day. *)
Lemma load_new_day (w : world) :
  disk w = Missing
  ∨ (∃ m, disk w = Holds (JDict m) ∧ date_is_today today m = false) →
  ∃ v, (load_state today w).1
       = Ok (<["plan_tokens_left" := v]> (default_state today)).
Proof.
  intros [Hm|(m & Hm & Hd)]; unfold load_state; rewrite Hm; simpl.
  - exists (JInt 0). by rewrite insert_id.
  - rewrite (reconcile_stale _ _ Hd). eauto.
Qed.

(** X5: on a new day (no state file yet, or a file left by another day) a
    session without reset charges a registry bucket at most its daily limit,
    and the balance it leaves is the limit less the tokens charged. *)
Theorem session_daily_limit (runs : list arguments) (w : world)
    (bucket : string) (limit : Z) :
  disk w = Missing
  ∨ (∃ m, disk w = Holds (JDict m) ∧ date_is_today today m = false) →
  daily_limit bucket = Some limit →
  Forall (λ args, args ≠ ResetArgs) runs →
  0 ≤ spent today bucket runs w ≤ limit
  ∧ ∃ state',
      (load_state today (session today runs w)).1 = Ok state'
      ∧ balance_of state' bucket = Ok (limit - spent today bucket runs w).
Proof.
  intros Hnew Hlimit Hruns.
  destruct (load_new_day w Hnew) as [v Hload].
  destruct (session_balance runs w _ bucket limit Hload
              (balance_of_default v bucket limit Hlimit) Hruns)
    as (state' & Hload' & Hbal' & Hpos & Hle).
  pose proof (daily_limit_nonneg _ _ Hlimit).
  split; [auto with lia | eauto].
Qed.

End Quota.

(** ** What a session leaves in the file *)

Section Files.

Variable today : string.

Lemma session_disk (runs : list arguments) (w : world) :
  disk (session today runs w) = disk w
  ∨ ∃ record,
      disk (session today runs w) = Holds (JDict record)
      ∧ reconciled today record.
Proof.
  revert w. induction runs as [|args rest IH]; intros w; [by left|].
  simpl. destruct (IH (main today args w).2) as [Hsame|Hrec]; [|by right].
  rewrite Hsame.
  destruct (main_disk today args w) as [?|(state & msg & Hr & ->)];
    [by left|].
  right. eexists. split; [reflexivity | exact Hr].
Qed.

(** X6: every record a session leaves in the file is well formed.  After any
    runs of the guard the file is as it was found, or it holds a record dated
    today with a plan entry and a buckets dict that has every registry
    bucket. *)
Theorem session_writes_records (runs : list arguments) (w : world) :
  disk (session today runs w) = disk w
  ∨ ∃ record bm,
      disk (session today runs w) = Holds (JDict record)
      ∧ record !! "date" = Some (JStr today)
      ∧ record !! "buckets" = Some (JDict bm)
      ∧ (∀ b, is_Some (daily_limit b) → is_Some (bm !! b))
      ∧ is_Some (record !! "plan_tokens_left").
Proof.
  destruct (session_disk runs w)
    as [?|(record & Hd & Hdate & (bm & Hb & Hfill) & Hp)]; [by left|].
  right. exists record, bm. repeat (split; [done|]). split; [|done].
  intros b. by apply fill_dict_has.
Qed.

(** X7: the guard never writes a file it cannot load.  If the file loads on
    every day before a session (as a missing file does), it loads on every
    day after it, whatever the runs. *)
Theorem session_keeps_loading (runs : list arguments) (w : world) :
  (∀ day, loads day (disk w) = true) →
  ∀ day, loads day (disk (session today runs w)) = true.
Proof.
  intros Hw day.
  destruct (session_disk runs w) as [->|(record & -> & Hr)]; [done|].
  by eapply reconciled_loads.
Qed.

End Files.

(** ** How the commands compose *)

Section Compose.

Variable today : string.

Lemma plan_of_set (state : gmap string json) (v d : json) :
  plan_of (<["date" := d]> (<["plan_tokens_left" := v]> state)) = py_int v.
Proof.
  rewrite plan_of_stamp. unfold plan_of, get_or. by rewrite lookup_insert_eq.
Qed.

Lemma balance_of_set (state : gmap string json) (v d : json)
    (bucket : string) :
  balance_of (<["date" := d]> (<["plan_tokens_left" := v]> state)) bucket
  = balance_of state bucket.
Proof.
  rewrite balance_of_stamp. unfold balance_of, getitem.
  by rewrite lookup_insert_ne.
Qed.

(** X8: set-plan opens and closes the gate for the requests that follow.
    After [cmd_set_plan] stored a positive allowance, every request of the
    day returns 1 with the plan message and writes nothing.  After it stored
    0, a request for an allowlisted model with a positive cost within the
    balance of its bucket returns 0. *)
Theorem set_plan_gates_requests (plan : Z) (w : world)
    (state : gmap string json) (model_arg : string) (tokens : Z) :
  0 ≤ plan →
  (load_state today w).1 = Ok state →
  let w' := (cmd_set_plan today plan w).2 in
  (0 < plan →
   cmd_request today model_arg tokens w' = (Ok 1, say PlanStillAvailable w'))
  ∧ (plan = 0 →
     ∀ bucket left,
       bucket_for_model (lower (strip model_arg)) = Some bucket →
       balance_of state bucket = Ok left →
       0 < tokens ≤ left →
       (cmd_request today model_arg tokens w').1 = Ok 0).
Proof.
  intros Hpos Hload w'. subst w'.
  rewrite (set_plan_run _ _ _ _ Hpos Hload). cbn [snd].
  set (w' := saved today _ _ w).
  assert (Hload' : (load_state today w').1
                   = Ok (<["date" := JStr today]>
                           (<["plan_tokens_left" := JInt plan]> state))).
  { subst w'. rewrite load_saved; [reflexivity|].
    apply reconciled_set_plan. by eapply load_state_reconciled. }
  split.
  - intros Hplan. eapply request_by_plan; [exact Hload'| |exact Hplan].
    by rewrite plan_of_set.
  - intros -> bucket left Hb Hbal Ht.
    erewrite request_admitted; [reflexivity|exact Hload'| | |exact Hb| | |].
    + by rewrite plan_of_set.
    + lia.
    + lia.
    + by rewrite balance_of_set.
    + lia.
Qed.

(** X9: set-plan on a record of another day writes the rollover.  Whatever
    balances the stale record had, the record written is dated today, has the
    new allowance, and has every registry bucket at its daily limit. *)
Theorem set_plan_writes_rollover (plan : Z) (w : world)
    (m : gmap string json) :
  0 ≤ plan →
  disk w = Holds (JDict m) →
  date_is_today today m = false →
  ∃ record,
    disk (cmd_set_plan today plan w).2 = Holds (JDict record)
    ∧ record !! "date" = Some (JStr today)
    ∧ plan_of record = Ok plan
    ∧ ∀ bucket limit,
        daily_limit bucket = Some limit →
        balance_of record bucket = Ok limit.
Proof.
  intros Hpos Hm Hd.
  assert (Hload : (load_state today w).1
                  = Ok (<["plan_tokens_left" :=
                            get_or m "plan_tokens_left" (JInt 0)]>
                          (default_state today))).
  { unfold load_state. rewrite Hm. simpl. by apply reconcile_stale. }
  rewrite (set_plan_run _ _ _ _ Hpos Hload). eexists.
  split; [reflexivity|]. split; [apply lookup_insert_eq|].
  split; [by rewrite plan_of_set|].
  intros bucket limit Hl. rewrite balance_of_set.
  by apply balance_of_default.
Qed.

(** X10: what reset leaves behind.  After [cmd_reset] on a loadable file the
    next load of the day returns a record with every registry bucket at its
    daily limit and the plan allowance of before; and a second reset leaves
    the file exactly as the first did. *)
Theorem reset_then_load (w : world) (prev : gmap string json) :
  (load_state today w).1 = Ok prev →
  let w' := (cmd_reset today w).2 in
  ∃ record,
    (load_state today w').1 = Ok record
    ∧ (∀ bucket limit,
         daily_limit bucket = Some limit →
         balance_of record bucket = Ok limit)
    ∧ plan_of record = plan_of prev
    ∧ disk (cmd_reset today w').2 = disk w'.
Proof.
  intros Hload w'. subst w'. rewrite (reset_run _ _ _ Hload). cbn [snd].
  set (p := get_or prev "plan_tokens_left" (JInt 0)).
  set (w' := saved today _ _ w).
  assert (Hload' : (load_state today w').1
                   = Ok (<["date" := JStr today]>
                           (<["plan_tokens_left" := p]>
                              (default_state today)))).
  { subst w'. rewrite load_saved; [reflexivity|]. apply reconciled_reset. }
  eexists. split; [exact Hload'|]. split; [|split].
  - intros bucket limit Hl. rewrite balance_of_stamp.
    by apply balance_of_default.
  - by rewrite plan_of_set.
  - rewrite (reset_run _ _ _ Hload'). unfold get_or.
    rewrite lookup_insert_ne by done. by rewrite lookup_insert_eq.
Qed.

End Compose.

(** ** Admission, the other way round *)

Section Gate.

Variable today : string.


(** X11: a request returns 0 only when all four checks pass.  If
    [cmd_request] returns 0, the loaded plan allowance is a number that is
    not positive, the normalised model is on the allowlist, the cost is
    positive, and the cost is at most the balance of the model's bucket. *)
Theorem request_admitted_only_if (model_arg : string) (tokens : Z)
    (w : world) :
  (cmd_request today model_arg tokens w).1 = Ok 0 →
  ∃ state plan bucket left,
    (load_state today w).1 = Ok state
    ∧ plan_of state = Ok plan ∧ plan ≤ 0
    ∧ bucket_for_model (lower (strip model_arg)) = Some bucket
    ∧ 0 < tokens
    ∧ balance_of state bucket = Ok left ∧ tokens ≤ left.
Proof.
  intros Hok.
  destruct (request_cases today model_arg tokens w)
    as [[e Hrun]|[(msg & _ & Hrun)|
                  (st & b & l & Hl & Hb & Hbal & Ht & Hrun)]];
    [by rewrite Hrun in Hok | by rewrite Hrun in Hok |].
  destruct (plan_of st) as [plan|e] eqn:Hplan.
  - destruct (Z.lt_ge_cases 0 plan) as [Hpos|Hpos].
    + by rewrite (request_by_plan _ _ _ _ _ _ Hl Hplan Hpos) in Hok.
    + exists st, plan, b, l. repeat (split; [done || lia|]). lia.
  - by rewrite (request_plan_raises _ _ _ _ _ _ Hl Hplan) in Hok.
Qed.


End Gate.

(** ** The status report and the allowlist *)

Section Reports.

Variable today : string.

(** X13: [cmd_status] only reads, and reports the record as loaded.  It
    leaves the world as it found it, also when loading rolled the record
    over.  On a loadable file it returns 0 and its report shows today's
    date, the plan entry of the loaded record, a line for every registry
    bucket with the daily limit beside the balance, for a bucket outside the
    registry its own balance as the limit, and the allowlist exactly when
    asked for. *)
Theorem status_reports_loaded (allowlist : bool) (w : world) :
  (cmd_status today allowlist w).2 = w
  ∧ ∀ state,
      (load_state today w).1 = Ok state →
      ∃ report,
        (cmd_status today allowlist w).1 = Ok (0, report)
        ∧ shown_date report = JStr today
        ∧ state !! "plan_tokens_left" = Some (shown_plan report)
        ∧ (∀ bucket limit,
             daily_limit bucket = Some limit →
             ∃ remaining,
               shown_buckets report !! bucket = Some (remaining, JInt limit))
        ∧ (∀ bucket remaining limit,
             shown_buckets report !! bucket = Some (remaining, limit) →
             daily_limit bucket = None → limit = remaining)
        ∧ shown_allowlist report
          = if allowlist then Some print_allowlist else None.
Proof.
  split; [apply status_world|].
  intros state Hload.
  destruct (load_state_reconciled today _ _ Hload)
    as (Hdate & (bm & Hb & Hfill) & [p Hp]).
  eexists. split.
  { unfold cmd_status, mbind, M_bind, lift, mret, M_ret.
    rewrite (load_state_run today _ _ Hload).
    unfold getitem. rewrite Hdate, Hp, Hb. simpl. reflexivity. }
  simpl. split; [done|]. split; [done|]. split; [|split; [|done]].
  - intros bucket limit Hl.
    destruct (fill_dict_has bm bucket Hfill) as [remaining Hr]; [eauto|].
    exists remaining. rewrite map_lookup_imap, Hr. simpl. by rewrite Hl.
  - intros bucket remaining limit Hshown Hnone.
    rewrite map_lookup_imap in Hshown.
    destruct (bm !! bucket) as [v|]; simpl in Hshown; [|done].
    rewrite Hnone in Hshown. simpl in Hshown. congruence.
Qed.

End Reports.

#[local] Instance str_leb_total : Total (λ a b : string, Is_true (String.leb a b)).
Proof.
  intros a b. destruct (String.leb_total a b) as [H|H]; rewrite H; auto.
Qed.

Lemma elem_of_py_sorted (name : string) (names : list string) :
  name ∈ py_sorted names ↔ name ∈ names.
Proof. unfold py_sorted. by rewrite merge_sort_Permutation. Qed.

Lemma model_buckets_NoDup : NoDup MODEL_BUCKETS.*1.
Proof. apply (bool_decide_unpack _). by vm_compute. Qed.

Lemma elem_of_models_in (model name : string) :
  model ∈ models_in name ↔ bucket_for_model model = Some name.
Proof.
  unfold models_in, bucket_for_model.
  rewrite <- (elem_of_list_to_map _ _ _ model_buckets_NoDup).
  rewrite list_elem_of_fmap. split.
  - intros ([m b] & -> & [Hb Hin]%list_elem_of_filter). simpl in *. by subst.
  - intros Hin. exists (model, name). split; [done|].
    by apply list_elem_of_filter.
Qed.

(** X14: the allowlist that is printed is the allowlist that is enforced.  A
    name stands after the first heading of [print_allowlist] exactly when
    [bucket_for_model] maps it to the bucket of 250k tokens, after the second
    exactly when it maps it to the bucket of 2.5M tokens, so a model is
    accepted by the guard exactly when it is printed; and each of the two
    lists is in ascending order. *)
Theorem print_allowlist_exact (model : string) :
  (model ∈ print_allowlist.1 ↔ bucket_for_model model = Some "tokens_250k")
  ∧ (model ∈ print_allowlist.2
     ↔ bucket_for_model model = Some "tokens_2_5m")
  ∧ (is_Some (bucket_for_model model)
     ↔ model ∈ print_allowlist.1 ++ print_allowlist.2)
  ∧ Sorted (λ a b, String.leb a b) print_allowlist.1
  ∧ Sorted (λ a b, String.leb a b) print_allowlist.2.
Proof.
  assert (H1 : model ∈ print_allowlist.1
               ↔ bucket_for_model model = Some "tokens_250k")
    by (simpl; by rewrite elem_of_py_sorted, elem_of_models_in).
  assert (H2 : model ∈ print_allowlist.2
               ↔ bucket_for_model model = Some "tokens_2_5m")
    by (simpl; by rewrite elem_of_py_sorted, elem_of_models_in).
  split; [exact H1|]. split; [exact H2|]. split.
  - rewrite elem_of_app, H1, H2. split; [|intros [->| ->]; eauto].
    intros [bucket Hb]. rewrite Hb.
    unfold bucket_for_model in Hb. apply elem_of_list_to_map_2 in Hb.
    unfold MODEL_BUCKETS in Hb.
    repeat (apply elem_of_cons in Hb as [[= -> ->]|Hb]; [by auto|]).
    by apply elem_of_nil in Hb.
  - split; apply (Sorted_merge_sort _).
Qed.

(** ** Files that load and files that do not *)

Section Damage.

Variable today : string.


(** X16: the guard cannot repair a file it cannot load.  With such a file,
    status, reset, request and set-plan with an allowance that is not
    negative all raise the exception of [load_state] and leave the file, the
    write log and the messages as they were. *)
Theorem damaged_file_blocks (args : arguments) (w : world) :
  loads today (disk w) = false →
  (∀ tokens, args = SetPlanArgs tokens → 0 ≤ tokens) →
  ∃ e, main today args w = (Raise e, w)
       ∧ (e = AttributeError ∨ e = UnicodeDecodeError).
Proof.
  intros Hl Hargs.
  destruct (load_state_cases today w) as [_ Hbad].
  destruct (Hbad Hl) as (e & Hrun & Hkind).
  assert (Hload : (load_state today w).1 = Raise e) by by rewrite Hrun.
  exists e. split; [|exact Hkind].
  destruct args as [allowlist|tokens| |model tokens]; simpl.
  - unfold cmd_status, mbind, M_bind. by rewrite Hrun.
  - apply set_plan_raises; auto.
  - by apply reset_raises.
  - by apply request_load_raises.
Qed.

End Damage.

(** ** The further theorems at work on the sample worlds *)

Lemma save_load_same_day_witness :
  (load_state "2026-01-02"
     (save_state "2026-01-02" rolled_record stale_world).2).1
  = Ok (<["date" := JStr "2026-01-02"]> rolled_record).
Proof.
  apply (save_load_same_day "2026-01-02" rolled_record limits_copy
           stale_world).
  - reflexivity.
  - intros b Hb. rewrite lookup_limits_copy. by apply fmap_is_Some.
  - by eexists.
Defined.

Lemma save_load_next_day_witness :
  (load_state "2026-01-03"
     (save_state "2026-01-02" yesterday_record fresh_world).2).1
  = Ok (<["plan_tokens_left" := JInt 500]> (default_state "2026-01-03")).
Proof.
  apply (save_load_next_day "2026-01-02" "2026-01-03" yesterday_record
           fresh_world).
  discriminate.
Defined.

Lemma request_admitted_persists_witness :
  ∃ record,
    (load_state "2026-01-02"
       (cmd_request "2026-01-02" "gpt-5" 100 fresh_world).2).1 = Ok record
    ∧ balance_of record "tokens_250k" = Ok (250000 - 100).
Proof.
  destruct (request_admitted_persists "2026-01-02" "gpt-5" 100 fresh_world
              eq_refl)
    as (state & bucket & left & record & Hl & Hb & Hbal & _ & Hload & Hnew).
  injection Hl as <-. injection Hb as <-. injection Hbal as <-.
  exists record. split; [exact Hload | exact Hnew].
Defined.

Lemma sample_runs_no_reset : Forall (λ args, args ≠ ResetArgs) sample_runs.
Proof. by repeat constructor. Qed.

Lemma session_accounting_witness :
  spent "2026-01-02" "tokens_250k" sample_runs fresh_world = 250000
  ∧ ∃ state',
      (load_state "2026-01-02"
         (session "2026-01-02" sample_runs fresh_world)).1 = Ok state'
      ∧ balance_of state' "tokens_250k"
        = Ok (250000
              - spent "2026-01-02" "tokens_250k" sample_runs fresh_world).
Proof.
  split; [by vm_compute|].
  destruct (session_accounting "2026-01-02" sample_runs fresh_world
              (default_state "2026-01-02") "tokens_250k" 250000
              eq_refl eq_refl sample_runs_no_reset)
    as (state' & Hload & Hbal & _).
  exists state'. split; [exact Hload | exact Hbal].
Defined.

Lemma session_daily_limit_witness :
  0 ≤ spent "2026-01-02" "tokens_2_5m" sample_runs stale_world ≤ 2500000.
Proof.
  apply (session_daily_limit "2026-01-02" sample_runs stale_world
           "tokens_2_5m" 2500000).
  - right. exists yesterday_record. split; reflexivity.
  - reflexivity.
  - exact sample_runs_no_reset.
Defined.

Lemma session_keeps_loading_witness :
  loads "2026-01-03"
    (disk (session "2026-01-02" sample_runs fresh_world)) = true.
Proof.
  apply (session_keeps_loading "2026-01-02" sample_runs fresh_world).
  intros day. reflexivity.
Defined.

Lemma set_plan_gates_requests_witness :
  cmd_request "2026-01-02" "gpt-5" 1
    (cmd_set_plan "2026-01-02" 5 fresh_world).2
  = (Ok 1, say PlanStillAvailable
             (cmd_set_plan "2026-01-02" 5 fresh_world).2).
Proof.
  apply (set_plan_gates_requests "2026-01-02" 5 fresh_world
           (default_state "2026-01-02") "gpt-5" 1); [lia | reflexivity | lia].
Defined.

Lemma set_plan_writes_rollover_witness :
  ∃ record,
    disk (cmd_set_plan "2026-01-02" 7 stale_world).2 = Holds (JDict record)
    ∧ plan_of record = Ok 7
    ∧ balance_of record "tokens_250k" = Ok 250000.
Proof.
  destruct (set_plan_writes_rollover "2026-01-02" 7 stale_world
              yesterday_record ltac:(lia) eq_refl eq_refl)
    as (record & Hdisk & _ & Hplan & Hbal).
  exists record. split; [exact Hdisk|]. split; [exact Hplan|].
  apply Hbal. reflexivity.
Defined.

Lemma reset_then_load_witness :
  ∃ record,
    (load_state "2026-01-02" (cmd_reset "2026-01-02" stale_world).2).1
    = Ok record
    ∧ plan_of record = Ok 500.
Proof.
  destruct (reset_then_load "2026-01-02" stale_world rolled_record eq_refl)
    as (record & Hload & _ & Hplan & _).
  exists record. split; [exact Hload | exact Hplan].
Defined.

Lemma request_admitted_only_if_witness :
  ∃ plan, plan_of (default_state "2026-01-02") = Ok plan ∧ plan ≤ 0.
Proof.
  destruct (request_admitted_only_if "2026-01-02" "gpt-5" 100 fresh_world
              eq_refl)
    as (state & plan & bucket & left & Hl & Hplan & Hle & _).
  injection Hl as <-. exists plan. split; [exact Hplan | exact Hle].
Defined.


Lemma damaged_file_blocks_witness :
  ∃ e, main "2026-01-02" ResetArgs (World (Holds (JList [])) [] [])
       = (Raise e, World (Holds (JList [])) [] []).
Proof.
  destruct (damaged_file_blocks "2026-01-02" ResetArgs
              (World (Holds (JList [])) [] []) eq_refl)
    as (e & Hrun & _); [discriminate|].
  exists e. exact Hrun.
Defined.
